(** * The fusion workspace and the UDP pose receiver

    A shallow embedding of
    - [src/pose_stream_server/common/fusion_workspace.py]
      ([PoseSnapshot], [FusionWorkspace]),
    - [src/camera-hpe-models/pose_stream_server/udp_pose_receiver/udp_pose_receiver.py]
      ([PosePacketProtocol.datagram_received], [_pretty_print_packet]) and
    - [src/pose_stream_server/mediapipe/mediapipe_stream_server.py]
      ([_landmark_dict], [extract_pose_data]).

    Python objects that reach the workspace are values of [pyobj]; a method
    is a function from the state of [self] to an outcome (returned or
    raised), the new state and the log records it submitted, in a small
    state / exception / writer monad [Py].  Python floats are IEEE binary64
    numbers, as are the kernel's primitive floats used here. *)

From Stdlib Require Import ZArith Ascii String List Floats DecimalString.
From stdpp Require Import base option gmap strings list.
Import ListNotations.

#[local] Set Warnings "-register-all,-inexact-float".
#[local] Open Scope Z_scope.
#[local] Open Scope string_scope.

(** ** Python values *)

(** What [json.loads] can build: [None], [bool], [int], [float], [str],
    [list] and [dict] with [str] keys.  A [str] is held as the bytes of its
    UTF-8 encoding.  Equality of Python dicts does not depend on the order of
    insertion, and no code below iterates over a packet: a [dict] is a finite
    map. *)
Inductive pyobj : Type :=
  | PyNone
  | PyBool (b : bool)
  | PyInt (n : Z)
  | PyFloat (f : float)
  | PyStr (s : string)
  | PyList (l : list pyobj)
  | PyDict (d : gmap string pyobj).

(** The exception classes that the modelled code can meet. *)
Inductive exn_class : Type :=
  | AttributeError
  | TypeError
  | ValueError
  | OverflowError
  | RecursionError
  | UnicodeDecodeError
  | JSONDecodeError.

Record exn : Type := Exn { exn_cls : exn_class; exn_msg : string }.

Inductive outcome (A : Type) : Type :=
  | Returned (a : A)
  | Raised (e : exn).
Arguments Returned {A} a.
Arguments Raised {A} e.

(** [type(o).__name__] *)
Definition type_name (o : pyobj) : string :=
  match o with
  | PyNone => "NoneType"
  | PyBool _ => "bool"
  | PyInt _ => "int"
  | PyFloat _ => "float"
  | PyStr _ => "str"
  | PyList _ => "list"
  | PyDict _ => "dict"
  end.

(** [bool(o)]: the truth value Python gives an object in [if], [not], [or]. *)
Definition py_truthy (o : pyobj) : bool :=
  match o with
  | PyNone => false
  | PyBool b => b
  | PyInt n => negb (n =? 0)%Z
  | PyFloat f => negb (f =? 0)%float
  | PyStr s => match s with EmptyString => false | String _ _ => true end
  | PyList l => match l with [] => false | _ :: _ => true end
  | PyDict d => negb (Nat.eqb (size d) 0)
  end.

(** [a or b] *)
Definition py_or (a b : pyobj) : pyobj := if py_truthy a then a else b.

(** Number of code points of a UTF-8 encoded string: the bytes that are not
    continuation bytes (10xxxxxx). *)
Fixpoint str_len (s : string) : Z :=
  match s with
  | EmptyString => 0
  | String c rest =>
      (if (Z.land (Z.of_N (Ascii.N_of_ascii c)) 192 =? 128)%Z then 0 else 1) + str_len rest
  end.

(** [len(o)] *)
Definition py_len (o : pyobj) : outcome Z :=
  match o with
  | PyStr s => Returned (str_len s)
  | PyList l => Returned (Z.of_nat (length l))
  | PyDict d => Returned (Z.of_nat (size d))
  | PyNone | PyBool _ | PyInt _ | PyFloat _ =>
      Raised (Exn TypeError ("object of type '" ++ type_name o ++ "' has no len()"))
  end.

(** [o.get(key, default)]: only a dict has the method. *)
Definition py_get (o : pyobj) (key : string) (default : pyobj) : outcome pyobj :=
  match o with
  | PyDict d => Returned (match d !! key with Some v => v | None => default end)
  | _ => Raised (Exn AttributeError ("'" ++ type_name o ++ "' object has no attribute 'get'"))
  end.

(** [float(n)] for an [int]: the nearest binary64 number (ties to even), or
    [OverflowError] when that is out of range. *)
Definition float_of_int (n : Z) : outcome float :=
  let f := SF2Prim (binary_normalize prec emax n 0 false) in
  if is_infinity f
  then Raised (Exn OverflowError "int too large to convert to float")
  else Returned f.

(** [float(o)].  How the builtin reads a [str] (its grammar of decimal
    literals, [inf], [nan], blanks, digit separators) is the parameter
    [float_of_str]; [None] stands for its [ValueError]. *)
Definition py_float (float_of_str : string -> option float) (o : pyobj) : outcome float :=
  match o with
  | PyFloat f => Returned f
  | PyInt n => float_of_int n
  | PyBool b => Returned (if b then 1 else 0)%float
  | PyStr s =>
      match float_of_str s with
      | Some f => Returned f
      | None => Raised (Exn ValueError ("could not convert string to float: '" ++ s ++ "'"))
      end
  | PyNone | PyList _ | PyDict _ =>
      Raised (Exn TypeError
                ("float() argument must be a string or a real number, not '"
                 ++ type_name o ++ "'"))
  end.

(** ** Log records *)

Inductive level : Type := DEBUG | INFO | WARNING.

(** A sender address is the pair [(host, port)]. *)
Definition address : Type := string * Z.

(** The arguments handed to the logger with a message template. *)
Inductive logarg : Type :=
  | ArgAddr (a : address)
  | ArgObj (o : pyobj)
  | ArgInt (n : Z)
  | ArgFloat (f : float)
  | ArgStr (s : string)
  | ArgExn (e : exn).

(** What [logger.info(msg, *args)] and [logger.warning(msg, *args)] submit.
    The logging module renders [msg % args] later, inside its handlers, and
    reports a rendering failure on its own error stream: it never raises to
    the caller. *)
Record LogRecord : Type := mkLog { levelname : level; msg : string; args : list logarg }.

(** ** The monad of methods *)

Record Step (S A : Type) : Type :=
  mkStep { result : outcome A; state : S; emitted : list LogRecord }.
Arguments mkStep {S A} result state emitted.
Arguments result {S A} s.
Arguments state {S A} s.
Arguments emitted {S A} s.

Definition Py (S A : Type) : Type := S -> Step S A.

Definition ret {S A} (a : A) : Py S A := fun s => mkStep (Returned a) s [].

Definition raise {S A} (e : exn) : Py S A := fun s => mkStep (Raised e) s [].

Definition bind {S A B} (m : Py S A) (k : A -> Py S B) : Py S B :=
  fun s =>
    let r := m s in
    match result r with
    | Returned a =>
        let r' := k a (state r) in
        mkStep (result r') (state r') (emitted r ++ emitted r')
    | Raised e => mkStep (Raised e) (state r) (emitted r)
    end.

Notation "'let*' x ':=' m 'in' k" := (bind m (fun x => k))
  (at level 10, x name, m at level 100, k at level 200, only parsing).
Notation "m ;;; k" := (bind m (fun _ => k))
  (at level 100, k at level 200, right associativity, only parsing).

(** An expression that may raise, evaluated inside a method. *)
Definition eval {S A} (o : outcome A) : Py S A :=
  match o with
  | Returned a => ret a
  | Raised e => raise e
  end.

(** [try: body except <classes> as exc: handler exc]; [catches] tells which
    exceptions the clause takes. *)
Definition try_except {S A} (body : Py S A) (catches : exn -> bool)
    (handler : exn -> Py S A) : Py S A :=
  fun s =>
    let r := body s in
    match result r with
    | Returned _ => r
    | Raised e =>
        if catches e
        then let r' := handler e (state r) in
             mkStep (result r') (state r') (emitted r ++ emitted r')
        else r
    end.

Definition get_self {S} : Py S S := fun s => mkStep (Returned s) s [].

Definition set_self {S} (f : S -> S) : Py S unit := fun s => mkStep (Returned tt) (f s) [].

Definition logger_info {S} (m : string) (a : list logarg) : Py S unit :=
  fun s => mkStep (Returned tt) s [mkLog INFO m a].

Definition logger_warning {S} (m : string) (a : list logarg) : Py S unit :=
  fun s => mkStep (Returned tt) s [mkLog WARNING m a].

(** ** Data of the workspace *)

(** [@dataclass class PoseSnapshot]: [timestamp: float] and
    [landmarks: Mapping[str, Mapping[str, float]]].  The outer mapping is
    iterated by [update_lower_body], so it is kept as the list of its items
    in the order of the dict (keys are unique in a dict); the inner mappings
    are only looked up. *)
Record PoseSnapshot : Type := mkPoseSnapshot {
  timestamp : float;
  landmarks : list (string * gmap string float)
}.

(** The attributes of a [FusionWorkspace]. [latest_upper_body] holds [None]
    or whatever object was handed to [handle_quest_packet]; the attribute
    [_mp_frame_idx] does not exist until [update_lower_body] creates it. *)
Record FusionWorkspace : Type := mkFusionWorkspace {
  latest_upper_body : pyobj;
  latest_lower_body : option PoseSnapshot;
  _mp_frame_idx : option Z
}.

(** [FusionWorkspace.__init__] *)
Definition __init__ : FusionWorkspace :=
  {| latest_upper_body := PyNone; latest_lower_body := None; _mp_frame_idx := None |}.

Definition set_latest_upper_body (v : pyobj) (self : FusionWorkspace) : FusionWorkspace :=
  {| latest_upper_body := v;
     latest_lower_body := latest_lower_body self;
     _mp_frame_idx := _mp_frame_idx self |}.

Definition set_latest_lower_body (v : option PoseSnapshot) (self : FusionWorkspace)
  : FusionWorkspace :=
  {| latest_upper_body := latest_upper_body self;
     latest_lower_body := v;
     _mp_frame_idx := _mp_frame_idx self |}.

Definition set_mp_frame_idx (v : Z) (self : FusionWorkspace) : FusionWorkspace :=
  {| latest_upper_body := latest_upper_body self;
     latest_lower_body := latest_lower_body self;
     _mp_frame_idx := Some v |}.

(** Reading [self._mp_frame_idx]. *)
Definition get_mp_frame_idx : Py FusionWorkspace Z :=
  fun self =>
    match _mp_frame_idx self with
    | Some n => ret n self
    | None => raise (Exn AttributeError "'FusionWorkspace' object has no attribute '_mp_frame_idx'") self
    end.

(** Reading [o.timestamp] where [o] is [self.latest_lower_body]. *)
Definition attr_timestamp (o : option PoseSnapshot) : outcome float :=
  match o with
  | Some snapshot => Returned (timestamp snapshot)
  | None => Raised (Exn AttributeError "'NoneType' object has no attribute 'timestamp'")
  end.

(** The message templates of the two modules. *)
Definition MSG_QUEST_PACKET : string :=
  "Unity OSC packet from %s @ %.3f with %d joints".
Definition MSG_SNAPSHOT : string :=
  "Pose snapshot from camera @ %.3f with %d keypoints (logging every 60 frames):".
Definition MSG_KEYPOINT : string :=
  "Keypoint %d - %s: (%.3f, %.3f, %.3f). Confidence score: %.4f".
Definition MSG_NO_LANDMARKS : string :=
  "Pose snapshot from camera @ %.3f (no landmarks visible)".
Definition MSG_FUSION_READY : string :=
  "Fusion workspace ready (Quest ts=%.3f, Camera source ts=%.3f, Δ=%.3fs) — this is the hook for blending the two bodies.".
Definition MSG_DECODE_FAILED : string :=
  "Failed to decode UDP packet from %s: %s".

(** [class PosePacketProtocol]: the handler given to [__init__]; [S] is the
    state the handler works on. *)
Record PosePacketProtocol (S : Type) : Type := mkPosePacketProtocol {
  _handler : pyobj -> address -> Py S unit
}.
Arguments mkPosePacketProtocol {S} _handler.
Arguments _handler {S} p.

Definition bytes : Type := list Byte.byte.

Definition outcome_bind {A B} (o : outcome A) (k : A -> outcome B) : outcome B :=
  match o with
  | Returned a => k a
  | Raised e => Raised e
  end.

(** [except (UnicodeDecodeError, json.JSONDecodeError)] *)
Definition is_decode_error (e : exn) : bool :=
  match exn_cls e with
  | UnicodeDecodeError | JSONDecodeError => true
  | _ => false
  end.

(** [except Exception]: every class of [exn_class] derives from it. *)
Definition is_Exception (e : exn) : bool := true.

Section Model.

(** The library functions the two modules call: how [float] reads a [str],
    [bytes.decode("utf-8")] and [json.loads]. *)
Variable float_of_str : string -> option float.
Variable decode_utf8 : bytes -> outcome string.
Variable json_loads : string -> outcome pyobj.

(** *** [FusionWorkspace] *)

(** [FusionWorkspace._log_workspace_state] *)
Definition _log_workspace_state : Py FusionWorkspace unit :=
  let* self := get_self in
  if negb (py_truthy (latest_upper_body self))
     || negb (match latest_lower_body self with Some _ => true | None => false end)
  then ret tt
  else
    let* quest_ts :=
      try_except
        (let* v := eval (py_get (latest_upper_body self) "timestamp" (PyFloat 0%float)) in
         eval (py_float float_of_str v))
        is_Exception
        (fun _ => ret 0%float) in
    let* pose_estimation_by_camera_ts := eval (attr_timestamp (latest_lower_body self)) in
    let delta := (pose_estimation_by_camera_ts - quest_ts)%float in
    logger_info MSG_FUSION_READY
      [ArgFloat quest_ts; ArgFloat pose_estimation_by_camera_ts; ArgFloat delta].

(** [FusionWorkspace.handle_quest_packet] *)
Definition handle_quest_packet (packet : pyobj) (addr : address) : Py FusionWorkspace unit :=
  set_self (set_latest_upper_body packet) ;;;
  let* timestamp := eval (py_get packet "timestamp" PyNone) in
  let* joints := eval (py_get packet "joints" (PyList [])) in
  let* joint_count := eval (py_len (py_or joints (PyList []))) in
  logger_info MSG_QUEST_PACKET [ArgAddr addr; ArgObj timestamp; ArgInt joint_count] ;;;
  _log_workspace_state.

(** The loop [for idx, (name, lm) in enumerate(snapshot.landmarks.items(), start=1)]. *)
Fixpoint log_keypoints (idx : Z) (items : list (string * gmap string float))
  : Py FusionWorkspace unit :=
  match items with
  | [] => ret tt
  | (name, lm) :: rest =>
      let x := default 0%float (lm !! "x") in
      let y := default 0%float (lm !! "y") in
      let z := default 0%float (lm !! "z") in
      let visibility := default 0%float (lm !! "visibility") in
      logger_info MSG_KEYPOINT
        [ArgInt idx; ArgStr name; ArgFloat x; ArgFloat y; ArgFloat z; ArgFloat visibility] ;;;
      log_keypoints (idx + 1) rest
  end.

(** [FusionWorkspace.update_lower_body] *)
Definition update_lower_body (snapshot : PoseSnapshot) : Py FusionWorkspace unit :=
  set_self (set_latest_lower_body (Some snapshot)) ;;;
  let* self := get_self in
  (match _mp_frame_idx self with
   | Some n => set_self (set_mp_frame_idx (n + 1))
   | None => set_self (set_mp_frame_idx 1)
   end) ;;;
  let* frame_idx := get_mp_frame_idx in
  (if (frame_idx mod 60 =? 0)%Z
   then
     match landmarks snapshot with
     | _ :: _ =>
         logger_info MSG_SNAPSHOT
           [ArgFloat (timestamp snapshot); ArgInt (Z.of_nat (length (landmarks snapshot)))] ;;;
         log_keypoints 1 (landmarks snapshot)
     | [] =>
         logger_info MSG_NO_LANDMARKS [ArgFloat (timestamp snapshot)]
     end
   else ret tt) ;;;
  _log_workspace_state.

(** *** [PosePacketProtocol] *)

(** [PosePacketProtocol.datagram_received]: the [return] of the [except]
    clause is the [None] of the first step. *)
Definition datagram_received {S} (self : PosePacketProtocol S) (data : bytes)
    (addr : address) : Py S unit :=
  let* decoded :=
    try_except
      (let* payload := eval (outcome_bind (decode_utf8 data) json_loads) in
       ret (Some payload))
      is_decode_error
      (fun exc =>
         logger_warning MSG_DECODE_FAILED [ArgAddr addr; ArgExn exc] ;;;
         ret None) in
  match decoded with
  | None => ret tt
  | Some payload => _handler self payload addr
  end.

End Model.

(** ** A reference runtime

    Executable stand-ins for the three library functions, to run the model on
    concrete datagrams; the properties proved below hold for any choice of
    the three functions.  [utf8_decode] is the strict UTF-8 decoder, with the
    text of its exception.  [float_read] reads the decimal literals of
    [float(str)] (sign, digits, fraction, exponent, surrounding ASCII blanks,
    [inf], [nan]) without digit separators.  [json_read] reads the JSON
    texts without escape sequences in strings and without [NaN] and
    [Infinity], and reports a [JSONDecodeError], with a shortened text, for
    every other input.  It differs from [json.loads] on both sides: it
    refuses these texts, which the library accepts, and it has neither the
    recursion limit of the interpreter nor the limit on the digits of an
    integer, at which the library raises [RecursionError] and [ValueError]
    ([json_read_limited] below adds the first). *)

Definition in_range (lo hi b : N) : bool := (lo <=? b)%N && (b <=? hi)%N.

Definition is_continuation (b : N) : bool := in_range 128 191 b.

(** The second byte a leading byte of three or four allows (Unicode, table
    3-7): no overlong form, no surrogate, nothing above U+10FFFF. *)
Definition second_byte (b0 b1 : N) : bool :=
  if (b0 =? 224)%N then in_range 160 191 b1
  else if (b0 =? 237)%N then in_range 128 159 b1
  else if (b0 =? 240)%N then in_range 144 191 b1
  else if (b0 =? 244)%N then in_range 128 143 b1
  else is_continuation b1.

(** The first ill-formed sequence of a byte string as the decoder reports
    it: the position of its first byte, the position after its last byte,
    and the reason.  The sequence is the leading byte with the continuation
    bytes that were in order. *)
Fixpoint utf8_error (position : nat) (l : list N) : option (nat * nat * string) :=
  let unexpected_end k := Some (position, (position + k)%nat, "unexpected end of data") in
  let invalid_continuation k :=
    Some (position, (position + k)%nat, "invalid continuation byte") in
  match l with
  | [] => None
  | b0 :: l1 =>
      if in_range 0 127 b0 then utf8_error (S position) l1
      else if in_range 194 223 b0 then
        match l1 with
        | [] => unexpected_end 1%nat
        | b1 :: l2 =>
            if is_continuation b1 then utf8_error (position + 2) l2
            else invalid_continuation 1%nat
        end
      else if in_range 224 239 b0 then
        match l1 with
        | [] => unexpected_end 1%nat
        | b1 :: l2 =>
            if second_byte b0 b1 then
              match l2 with
              | [] => unexpected_end 2%nat
              | b2 :: l3 =>
                  if is_continuation b2 then utf8_error (position + 3) l3
                  else invalid_continuation 2%nat
              end
            else invalid_continuation 1%nat
        end
      else if in_range 240 244 b0 then
        match l1 with
        | [] => unexpected_end 1%nat
        | b1 :: l2 =>
            if second_byte b0 b1 then
              match l2 with
              | [] => unexpected_end 2%nat
              | b2 :: l3 =>
                  if is_continuation b2 then
                    match l3 with
                    | [] => unexpected_end 3%nat
                    | b3 :: l4 =>
                        if is_continuation b3 then utf8_error (position + 4) l4
                        else invalid_continuation 3%nat
                    end
                  else invalid_continuation 2%nat
              end
            else invalid_continuation 1%nat
        end
      else Some (position, S position, "invalid start byte")
  end.

Definition decimal (n : nat) : string := NilEmpty.string_of_uint (Nat.to_uint n).

Definition hex_digit (n : N) : ascii :=
  ascii_of_N (if (n <? 10)%N then 48 + n else 87 + n).

(** [%02x] of a byte. *)
Definition hex_byte (b : N) : string :=
  String (hex_digit (b / 16)) (String (hex_digit (b mod 16)) EmptyString).

(** [str(exc)] of the [UnicodeDecodeError] for the bytes from [start] up to
    [stop]. *)
Definition utf8_error_text (l : list N) (start stop : nat) (reason : string) : string :=
  if (stop =? S start)%nat
  then "'utf-8' codec can't decode byte 0x" ++ hex_byte (nth start l 0%N)
       ++ " in position " ++ decimal start ++ ": " ++ reason
  else "'utf-8' codec can't decode bytes in position " ++ decimal start ++ "-"
       ++ decimal (Nat.pred stop) ++ ": " ++ reason.

(** [data.decode("utf-8")] *)
Definition utf8_decode (data : bytes) : outcome string :=
  let l := map Byte.to_N data in
  match utf8_error 0 l with
  | None => Returned (string_of_list_byte data)
  | Some (start, stop, reason) =>
      Raised (Exn UnicodeDecodeError (utf8_error_text l start stop reason))
  end.

Definition is_digit (c : ascii) : bool := in_range 48 57 (N_of_ascii c).

Definition digit_value (c : ascii) : Z := Z.of_N (N_of_ascii c) - 48.

Definition is_blank (c : ascii) : bool :=
  let n := N_of_ascii c in
  (n =? 32)%N || in_range 9 13 n.

(** Reads a run of digits: the number read after [acc], how many digits
    there were, and the rest. *)
Fixpoint read_digits (acc : Z) (count : nat) (s : list ascii) : Z * nat * list ascii :=
  match s with
  | c :: rest =>
      if is_digit c then read_digits (10 * acc + digit_value c) (S count) rest
      else (acc, count, s)
  | [] => (acc, count, s)
  end.

(** The binary64 number nearest to [(-1)^neg * m * 10^e10] (ties to even),
    for [m >= 0]. *)
Definition decimal_to_float (neg : bool) (m : Z) (e10 : Z) : float :=
  if (m =? 0)%Z then (if neg then (-0)%float else 0%float)
  else if (0 <=? e10)%Z then
    SF2Prim (binary_normalize prec emax ((if neg then -1 else 1) * m * 10 ^ e10) 0 false)
  else
    SF2Prim (SFdiv prec emax
               (S754_finite neg (Z.to_pos m) 0)
               (S754_finite false (Z.to_pos (10 ^ (- e10))) 0)).

(** An optional exponent part [e+12]: the exponent and the rest; [None] when
    an [e] is not followed by digits. *)
Definition read_exponent (s : list ascii) : option (Z * list ascii) :=
  match s with
  | c :: rest =>
      if Ascii.eqb c "e" || Ascii.eqb c "E" then
        let '(neg, rest1) :=
          match rest with
          | "-"%char :: r => (true, r)
          | "+"%char :: r => (false, r)
          | _ => (false, rest)
          end in
        let '(e, n, rest2) := read_digits 0 0 rest1 in
        match n with
        | O => None
        | S _ => Some (if neg then - e else e, rest2)
        end
      else Some (0, s)
  | [] => Some (0, s)
  end.

Fixpoint drop_blanks (s : list ascii) : list ascii :=
  match s with
  | c :: rest => if is_blank c then drop_blanks rest else s
  | [] => []
  end.

Definition lower (c : ascii) : ascii :=
  let n := N_of_ascii c in
  if in_range 65 90 n then ascii_of_N (n + 32) else c.

(** [float(s)] for a [str]. *)
Definition float_read (s : string) : option float :=
  let body := rev (drop_blanks (rev (drop_blanks (list_ascii_of_string s)))) in
  let '(neg, body) :=
    match body with
    | "-"%char :: r => (true, r)
    | "+"%char :: r => (false, r)
    | _ => (false, body)
    end in
  let word := string_of_list_ascii (map lower body) in
  if String.eqb word "inf" || String.eqb word "infinity"
  then Some (if neg then neg_infinity else infinity)
  else if String.eqb word "nan" then Some nan
  else
    let '(ip, ni, rest) := read_digits 0 0 body in
    let '(m, nf, rest) :=
      match rest with
      | "."%char :: r => let '(m, nf, r') := read_digits ip 0 r in (m, nf, r')
      | _ => (ip, O, rest)
      end in
    match (ni + nf)%nat with
    | O => None
    | S _ =>
        match read_exponent rest with
        | Some (e, []) => Some (decimal_to_float neg m (e - Z.of_nat nf))
        | _ => None
        end
    end.

(** JSON blanks: space, tab, line feed, carriage return. *)
Fixpoint skip_ws (s : list ascii) : list ascii :=
  match s with
  | c :: rest =>
      let n := N_of_ascii c in
      if (n =? 32)%N || (n =? 9)%N || (n =? 10)%N || (n =? 13)%N then skip_ws rest else s
  | [] => []
  end.

Definition quote : ascii := ascii_of_N 34.

Definition backslash : ascii := ascii_of_N 92.

(** The characters of a string up to its closing quote; escapes and control
    characters are outside the fragment. *)
Fixpoint read_string (s : list ascii) : option (string * list ascii) :=
  match s with
  | [] => None
  | c :: rest =>
      if Ascii.eqb c quote then Some (EmptyString, rest)
      else if Ascii.eqb c backslash || (N_of_ascii c <? 32)%N then None
      else
        match read_string rest with
        | Some (str, rest') => Some (String c str, rest')
        | None => None
        end
  end.

(** A JSON number: an [int] when it has neither fraction nor exponent, a
    [float] otherwise. *)
Definition read_number (s : list ascii) : option (pyobj * list ascii) :=
  let '(neg, s1) :=
    match s with
    | "-"%char :: r => (true, r)
    | _ => (false, s)
    end in
  let '(ip, ni, rest) :=
    match s1 with
    | "0"%char :: r => (0, 1%nat, r)
    | _ => read_digits 0 0 s1
    end in
  match ni with
  | O => None
  | S _ =>
      let frac :=
        match rest with
        | "."%char :: r =>
            let '(m, nf, r') := read_digits ip 0 r in
            match nf with O => None | S _ => Some (m, nf, r') end
        | _ => None
        end in
      let '(m, nf, rest1) := default (ip, O, rest) frac in
      match read_exponent rest1 with
      | Some (e, rest2) =>
          let has_exp := negb (Nat.eqb (length rest2) (length rest1)) in
          if negb (Nat.eqb nf 0) || has_exp
          then Some (PyFloat (decimal_to_float neg m (e - Z.of_nat nf)), rest2)
          else Some (PyInt (if neg then - ip else ip), rest2)
      | None =>
          if Nat.eqb nf 0 then Some (PyInt (if neg then - ip else ip), rest1)
          else Some (PyFloat (decimal_to_float neg m (- Z.of_nat nf)), rest1)
      end
  end.

Section JsonValue.

(** The reader of a nested value. *)
Variable read_value : list ascii -> option (pyobj * list ascii).

(** The elements of an array after its first one, up to the closing
    bracket. *)
Fixpoint read_elements (n : nat) (acc : list pyobj) (s : list ascii)
  : option (pyobj * list ascii) :=
  match n with
  | O => None
  | S n' =>
      match skip_ws s with
      | "]"%char :: rest => Some (PyList (rev acc), rest)
      | ","%char :: rest =>
          match read_value rest with
          | Some (v, rest') => read_elements n' (v :: acc) rest'
          | None => None
          end
      | _ => None
      end
  end.

(** One member of an object: a key, a colon, a value. *)
Definition read_member (s : list ascii) : option (string * pyobj * list ascii) :=
  match skip_ws s with
  | c :: rest =>
      if Ascii.eqb c quote then
        match read_string rest with
        | Some (key, rest1) =>
            match skip_ws rest1 with
            | ":"%char :: rest2 =>
                match read_value rest2 with
                | Some (v, rest3) => Some (key, v, rest3)
                | None => None
                end
            | _ => None
            end
        | None => None
        end
      else None
  | [] => None
  end.

(** The members of an object after its first one; a repeated key keeps its
    last value. *)
Fixpoint read_members (n : nat) (acc : gmap string pyobj) (s : list ascii)
  : option (pyobj * list ascii) :=
  match n with
  | O => None
  | S n' =>
      match skip_ws s with
      | "}"%char :: rest => Some (PyDict acc, rest)
      | ","%char :: rest =>
          match read_member rest with
          | Some (key, v, rest') => read_members n' (<[key := v]> acc) rest'
          | None => None
          end
      | _ => None
      end
  end.

End JsonValue.

(** A JSON value, with the nesting depth bounded by [fuel]. *)
Fixpoint read_value (fuel : nat) (s : list ascii) : option (pyobj * list ascii) :=
  match fuel with
  | O => None
  | S fuel' =>
      match skip_ws s with
      | "n"%char :: "u"%char :: "l"%char :: "l"%char :: rest => Some (PyNone, rest)
      | "t"%char :: "r"%char :: "u"%char :: "e"%char :: rest => Some (PyBool true, rest)
      | "f"%char :: "a"%char :: "l"%char :: "s"%char :: "e"%char :: rest =>
          Some (PyBool false, rest)
      | "["%char :: rest =>
          match skip_ws rest with
          | "]"%char :: rest' => Some (PyList [], rest')
          | _ =>
              match read_value fuel' rest with
              | Some (v, rest') => read_elements (read_value fuel') (length rest') [v] rest'
              | None => None
              end
          end
      | "{"%char :: rest =>
          match skip_ws rest with
          | "}"%char :: rest' => Some (PyDict ∅, rest')
          | _ =>
              match read_member (read_value fuel') rest with
              | Some (key, v, rest') =>
                  read_members (read_value fuel') (length rest') {[ key := v ]} rest'
              | None => None
              end
          end
      | c :: rest =>
          if Ascii.eqb c quote then
            match read_string rest with
            | Some (str, rest') => Some (PyStr str, rest')
            | None => None
            end
          else read_number (c :: rest)
      | [] => None
      end
  end.

(** [json.loads(s)]: one value, with blanks around it and nothing else. *)
Definition json_read (s : string) : outcome pyobj :=
  let text := list_ascii_of_string s in
  match read_value (S (length text)) text with
  | Some (v, rest) =>
      match skip_ws rest with
      | [] => Returned v
      | _ :: _ => Raised (Exn JSONDecodeError "Extra data")
      end
  | None => Raised (Exn JSONDecodeError "Expecting value")
  end.

(** ** Vocabulary of the properties *)

(** The synchronization observation: the record that carries the two
    timestamps and their difference. *)
Definition sync_record (quest_ts pose_ts : float) : LogRecord :=
  mkLog INFO MSG_FUSION_READY
    [ArgFloat quest_ts; ArgFloat pose_ts; ArgFloat (pose_ts - quest_ts)%float].

Definition is_sync_observation (r : LogRecord) : bool := String.eqb (msg r) MSG_FUSION_READY.

Definition sync_observations (out : list LogRecord) : list LogRecord :=
  List.filter is_sync_observation out.

(** The head line of the throttled landmark dump, in its two forms. *)
Definition is_landmark_diagnostic (r : LogRecord) : bool :=
  String.eqb (msg r) MSG_SNAPSHOT || String.eqb (msg r) MSG_NO_LANDMARKS.

Definition has_landmark_diagnostic (out : list LogRecord) : bool :=
  existsb is_landmark_diagnostic out.

(** The upper-body timestamp as the specification words it: [float] of the
    packet's timestamp where there is one that [float] accepts, and 0.0
    otherwise. *)
Definition spec_upper_timestamp (float_of_str : string -> option float) (upper : pyobj)
  : float :=
  match upper with
  | PyDict d =>
      match d !! "timestamp" with
      | Some v =>
          match py_float float_of_str v with
          | Returned f => f
          | Raised _ => 0%float
          end
      | None => 0%float
      end
  | _ => 0%float
  end.

(** The observation a workspace in state [ws] gives rise to. *)
Definition spec_sync (float_of_str : string -> option float) (ws : FusionWorkspace)
  : list LogRecord :=
  match latest_lower_body ws with
  | Some lower =>
      if py_truthy (latest_upper_body ws)
      then [sync_record (spec_upper_timestamp float_of_str (latest_upper_body ws))
              (timestamp lower)]
      else []
  | None => []
  end.

(** The number of calls counted so far: 0 while the attribute does not
    exist. *)
Definition frame_count (ws : FusionWorkspace) : Z := default 0 (_mp_frame_idx ws).

(** The calls a producer can make on the workspace. *)
Inductive call : Type :=
  | UpdateUpper (packet : pyobj) (addr : address)
  | UpdateLower (snapshot : PoseSnapshot).

Definition run_call (float_of_str : string -> option float) (c : call)
  : Py FusionWorkspace unit :=
  match c with
  | UpdateUpper packet addr => handle_quest_packet float_of_str packet addr
  | UpdateLower snapshot => update_lower_body float_of_str snapshot
  end.

(** The steps of a sequence of calls, each starting in the state the one
    before left, whether it returned or raised. *)
Fixpoint run_trace (float_of_str : string -> option float) (calls : list call)
    (ws : FusionWorkspace) : list (Step FusionWorkspace unit) :=
  match calls with
  | [] => []
  | c :: rest =>
      let r := run_call float_of_str c ws in
      r :: run_trace float_of_str rest (state r)
  end.

Fixpoint run_calls (float_of_str : string -> option float) (calls : list call)
    (ws : FusionWorkspace) : FusionWorkspace :=
  match calls with
  | [] => ws
  | c :: rest => run_calls float_of_str rest (state (run_call float_of_str c ws))
  end.

(** The packet of the most recent [UpdateUpper] of a sequence. *)
Fixpoint most_recent_upper (calls : list call) : option pyobj :=
  match calls with
  | [] => None
  | c :: rest =>
      match most_recent_upper rest with
      | Some p => Some p
      | None => match c with UpdateUpper p _ => Some p | UpdateLower _ => None end
      end
  end.

(** The snapshot of the most recent [UpdateLower] of a sequence. *)
Fixpoint most_recent_lower (calls : list call) : option PoseSnapshot :=
  match calls with
  | [] => None
  | c :: rest =>
      match most_recent_lower rest with
      | Some s => Some s
      | None => match c with UpdateLower s => Some s | UpdateUpper _ _ => None end
      end
  end.

(** A handler that only records its invocations. *)
Definition recording_handler (payload : pyobj) (addr : address)
  : Py (list (pyobj * address)) unit :=
  set_self (fun calls => (calls ++ [(payload, addr)])%list).


(** The mapping a list of dict items stands for. *)
Definition as_mapping (items : list (string * gmap string float))
  : gmap string (gmap string float) := list_to_map items.

(** ** Sample data

    Datagrams, packets and snapshots on which the model is run below, with
    the reference runtime. *)

(** The bytes of a text in which every apostrophe stands for a double
    quote. *)
Definition wire (text : string) : bytes :=
  map (fun b => match b with Byte.x27 => Byte.x22 | _ => b end) (list_byte_of_string text).

Definition quest_addr : address := ("192.168.0.7", 9000).

Definition quest_listener : PosePacketProtocol FusionWorkspace :=
  mkPosePacketProtocol (handle_quest_packet float_read).

Definition receive (data : bytes) : Py FusionWorkspace unit :=
  datagram_received utf8_decode json_read quest_listener data quest_addr.

Definition good_datagram : bytes := wire "{'timestamp': 10.0, 'joints': []}".

Definition good_payload : pyobj :=
  PyDict (<[ "timestamp" := PyFloat 10 ]> {[ "joints" := PyList [] ]}).

Definition nose_snapshot : PoseSnapshot :=
  mkPoseSnapshot 10.25
    [("nose", <[ "x" := 1 ]> (<[ "y" := 2 ]> (<[ "z" := 3 ]> {[ "confidence" := 0.9 ]})))%float;
     ("left_hip", <[ "x" := 0.5 ]> {[ "visibility" := 1 ]})%float].



(** The packet on which [handle_quest_packet] raises, as it arrives. *)
Definition unsized_joints_datagram : bytes := wire "{'joints': 5}".

Definition unsized_joints_packet : pyobj := PyDict {[ "joints" := PyInt 5 ]}.

(** A timestamp sent as a string. *)
Definition string_timestamp_workspace : FusionWorkspace :=
  {| latest_upper_body := PyDict {[ "timestamp" := PyStr "10.5" ]};
     latest_lower_body := Some nose_snapshot;
     _mp_frame_idx := Some 1 |}.

(** ** More vocabulary: outcomes, the dump, streams of datagrams *)

(** The exception a step ended with, if it raised. *)
Definition raised {A} (o : outcome A) : option exn :=
  match o with
  | Returned _ => None
  | Raised e => Some e
  end.

(** The objects [len] accepts. *)
Definition has_len (o : pyobj) : bool :=
  match o with
  | PyStr _ | PyList _ | PyDict _ => true
  | PyNone | PyBool _ | PyInt _ | PyFloat _ => false
  end.

Definition is_dict (o : pyobj) : bool :=
  match o with
  | PyDict _ => true
  | _ => false
  end.

(** The line of the dump for the landmark [name] with entries [lm], numbered
    [idx]. *)
Definition keypoint_record (idx : Z) (name : string) (lm : gmap string float) : LogRecord :=
  mkLog INFO MSG_KEYPOINT
    [ArgInt idx; ArgStr name;
     ArgFloat (default 0%float (lm !! "x")); ArgFloat (default 0%float (lm !! "y"));
     ArgFloat (default 0%float (lm !! "z")); ArgFloat (default 0%float (lm !! "visibility"))].

(** The whole dump of a snapshot: a head line with the number of landmarks
    and one line per landmark, numbered from 1 in the order of the dict; a
    single line when there is no landmark. *)
Definition landmark_dump (snapshot : PoseSnapshot) : list LogRecord :=
  match landmarks snapshot with
  | [] => [mkLog INFO MSG_NO_LANDMARKS [ArgFloat (timestamp snapshot)]]
  | _ :: _ =>
      mkLog INFO MSG_SNAPSHOT
        [ArgFloat (timestamp snapshot); ArgInt (Z.of_nat (length (landmarks snapshot)))]
      :: imap (fun i item => keypoint_record (Z.of_nat i + 1) item.1 item.2)
           (landmarks snapshot)
  end.

(** The lines of the throttled landmark diagnostic: the head line in its two
    forms and the keypoint lines. *)
Definition is_landmark_line (r : LogRecord) : bool :=
  is_landmark_diagnostic r || String.eqb (msg r) MSG_KEYPOINT.

(** The landmark diagnostic among the records of a call. *)
Definition landmark_diagnostic (out : list LogRecord) : list LogRecord :=
  List.filter is_landmark_line out.

(** Two landmark dicts that agree on the four entries the dump reads. *)
Definition same_reading (lm lm' : gmap string float) : Prop :=
  lm !! "x" = lm' !! "x" /\ lm !! "y" = lm' !! "y"
  /\ lm !! "z" = lm' !! "z" /\ lm !! "visibility" = lm' !! "visibility".

(** The number of [UpdateLower] calls of a sequence. *)
Definition lower_calls (calls : list call) : nat :=
  length (List.filter (fun c => match c with UpdateLower _ => true | UpdateUpper _ _ => false end)
            calls).

(** All the records of a trace, in order. *)
Definition records {S A} (trace : list (Step S A)) : list LogRecord :=
  concat (map emitted trace).

(** The listener at work on a stream of datagrams: each datagram is handed
    to [datagram_received] in the state the call before left. *)
Fixpoint listen {S} (decode_utf8 : bytes -> outcome string)
    (json_loads : string -> outcome pyobj) (self : PosePacketProtocol S)
    (datagrams : list (bytes * address)) (s : S) : list (Step S unit) :=
  match datagrams with
  | [] => []
  | (data, addr) :: rest =>
      let r := datagram_received decode_utf8 json_loads self data addr s in
      r :: listen decode_utf8 json_loads self rest (state r)
  end.

(** The state a trace ends in. *)
Definition final_state {S A} (s : S) (trace : list (Step S A)) : S :=
  match last trace with
  | Some r => state r
  | None => s
  end.

(** The payload of the last datagram of a stream that decodes. *)
Fixpoint last_decoded (decode_utf8 : bytes -> outcome string)
    (json_loads : string -> outcome pyobj) (datagrams : list (bytes * address))
  : option pyobj :=
  match datagrams with
  | [] => None
  | (data, _) :: rest =>
      match last_decoded decode_utf8 json_loads rest with
      | Some payload => Some payload
      | None =>
          match outcome_bind (decode_utf8 data) json_loads with
          | Returned payload => Some payload
          | Raised _ => None
          end
      end
  end.



(** A reader with the recursion limit of the interpreter: a text nested
    deeper than [limit] makes [json.loads] raise [RecursionError].  A
    stand-in like [json_read]: the brackets are counted wherever they stand,
    inside a string or behind a syntax error too, where the library would
    not get that far, and the text of the exception is shortened. *)
Fixpoint nesting (depth deepest : nat) (text : list ascii) : nat :=
  match text with
  | [] => deepest
  | c :: rest =>
      if Ascii.eqb c "[" || Ascii.eqb c "{"
      then nesting (S depth) (Nat.max deepest (S depth)) rest
      else if Ascii.eqb c "]" || Ascii.eqb c "}"
      then nesting (Nat.pred depth) deepest rest
      else nesting depth deepest rest
  end.

Definition json_read_limited (limit : nat) (s : string) : outcome pyobj :=
  if (limit <? nesting 0 0 (list_ascii_of_string s))%nat
  then Raised (Exn RecursionError "maximum recursion depth exceeded")
  else json_read s.

(** ** The rest of [udp_pose_receiver.py]: [_pretty_print_packet] *)

Definition logger_debug {S} (m : string) (a : list logarg) : Py S unit :=
  fun s => mkStep (Returned tt) s [mkLog DEBUG m a].

Definition MSG_PACKET : string :=
  "Packet from %s timestamp=%s hmd=(%.3f, %.3f, %.3f) yaw=%.1f".
Definition MSG_SAMPLE_JOINTS : string :=
  "Sample joints %s".

(** The characters of a [str]: in its UTF-8 bytes, each byte that is not a
    continuation byte starts one. *)
Definition code_points (s : string) : list string :=
  (fold_right
     (fun c (acc : string * list string) =>
        if is_continuation (N_of_ascii c)
        then (String c acc.1, acc.2)
        else (EmptyString, String c acc.1 :: acc.2))
     (EmptyString, [])
     (list_ascii_of_string s)).2.

(** [list(o)]: the elements of a list, the characters of a str, the keys of
    a dict (listed here in the order of the map, a dict lists them in the
    order of insertion; below only their number and their type matter). *)
Definition py_list (o : pyobj) : outcome (list pyobj) :=
  match o with
  | PyList l => Returned l
  | PyStr s => Returned (PyStr <$> code_points s)
  | PyDict d => Returned (PyStr <$> (map_to_list d).*1)
  | PyNone | PyBool _ | PyInt _ | PyFloat _ =>
      Raised (Exn TypeError ("'" ++ type_name o ++ "' object is not iterable"))
  end.

(** Runs [f] over a list from the left and stops at the first exception, as
    a generator expression consumed by [join] does. *)
Fixpoint outcome_map {A B} (f : A -> outcome B) (l : list A) : outcome (list B) :=
  match l with
  | [] => Returned []
  | a :: rest =>
      outcome_bind (f a) (fun b =>
      outcome_bind (outcome_map f rest) (fun bs => Returned (b :: bs)))
  end.

Section PrettyPrint.

(** How a float is written with three decimals ([format(f, ".3f")]) and how
    [str] writes an object are the library's. *)
Variable format_3f : float -> string.
Variable py_str : pyobj -> string.

(** [format(o, ".3f")], the [:.3f] of an f-string: numbers are written as
    floats, anything else is refused. *)
Definition py_format_3f (o : pyobj) : outcome string :=
  match o with
  | PyFloat f => Returned (format_3f f)
  | PyInt n => outcome_bind (float_of_int n) (fun f => Returned (format_3f f))
  | PyBool b => Returned (format_3f (if b then 1 else 0)%float)
  | PyStr _ =>
      Raised (Exn ValueError "Unknown format code 'f' for object of type 'str'")
  | PyNone | PyList _ | PyDict _ =>
      Raised (Exn TypeError
                ("unsupported format string passed to " ++ type_name o ++ ".__format__"))
  end.

(** [joint.get('pose', {}).get('position', {}).get(axis, 0.0)] written with
    [:.3f]. *)
Definition joint_axis (joint : pyobj) (axis : string) : outcome string :=
  outcome_bind (py_get joint "pose" (PyDict ∅)) (fun pose =>
  outcome_bind (py_get pose "position" (PyDict ∅)) (fun position =>
  outcome_bind (py_get position axis (PyFloat 0%float)) py_format_3f)).

(** The f-string of one joint: [name:(x, y, z)]. *)
Definition joint_text (joint : pyobj) : outcome string :=
  outcome_bind (py_get joint "name" PyNone) (fun name =>
  outcome_bind (joint_axis joint "x") (fun x =>
  outcome_bind (joint_axis joint "y") (fun y =>
  outcome_bind (joint_axis joint "z") (fun z =>
  Returned (py_str name ++ ":(" ++ x ++ ", " ++ y ++ ", " ++ z ++ ")"))))).

(** [_pretty_print_packet]; it has no state of its own, [S] is the state of
    whoever calls it. *)
Definition _pretty_print_packet {S} (packet : pyobj) (addr : address) : Py S unit :=
  let* timestamp := eval (py_get packet "timestamp" PyNone) in
  let* hmd := eval (py_get packet "hmd" (PyDict ∅)) in
  let* position := eval (py_get hmd "position" (PyDict ∅)) in
  let* rotation := eval (py_get hmd "rotation" (PyDict ∅)) in
  let* position_x := eval (py_get position "x" (PyFloat 0%float)) in
  let* position_y := eval (py_get position "y" (PyFloat 0%float)) in
  let* position_z := eval (py_get position "z" (PyFloat 0%float)) in
  let* rotation_y := eval (py_get rotation "y" (PyFloat 0%float)) in
  logger_info MSG_PACKET
    [ArgAddr addr; ArgObj timestamp; ArgObj position_x; ArgObj position_y;
     ArgObj position_z; ArgObj rotation_y] ;;;
  let* joint_iterable := eval (py_get packet "joints" (PyList [])) in
  let* joint_list := eval (py_list joint_iterable) in
  match joint_list with
  | [] => ret tt
  | _ :: _ =>
      let* texts := eval (outcome_map joint_text (take 4 joint_list)) in
      let joint_summary := String.concat ", " texts in
      let joint_summary :=
        if (4 <? length joint_list)%nat then joint_summary ++ ", ..." else joint_summary in
      logger_debug MSG_SAMPLE_JOINTS [ArgStr joint_summary]
  end.

End PrettyPrint.

(** The object a key stands for when a missing key means an empty dict. *)
Definition dict_at (d : gmap string pyobj) (key : string) : pyobj :=
  default (PyDict ∅) (d !! key).

(** The number a key stands for when a missing key means 0.0. *)
Definition number_at (o : pyobj) (key : string) : pyobj :=
  match o with
  | PyDict d => default (PyFloat 0%float) (d !! key)
  | _ => PyFloat 0%float
  end.

(** The packet line of [_pretty_print_packet] for a packet that is a dict
    [d]. *)
Definition packet_line (addr : address) (d : gmap string pyobj) : LogRecord :=
  let position := match dict_at d "hmd" with PyDict h => dict_at h "position" | o => o end in
  let rotation := match dict_at d "hmd" with PyDict h => dict_at h "rotation" | o => o end in
  mkLog INFO MSG_PACKET
    [ArgAddr addr; ArgObj (default PyNone (d !! "timestamp"));
     ArgObj (number_at position "x"); ArgObj (number_at position "y");
     ArgObj (number_at position "z"); ArgObj (number_at rotation "y")].

(** The packets whose packet line can be written: dicts whose [hmd], and its
    [position] and [rotation], are dicts where they are present. *)
Definition printable (packet : pyobj) : bool :=
  match packet with
  | PyDict d =>
      match dict_at d "hmd" with
      | PyDict h => is_dict (dict_at h "position") && is_dict (dict_at h "rotation")
      | _ => false
      end
  | _ => false
  end.

(** The text of the debug line for a list of joints: the first four, and
    dots when there are more. *)
Definition joints_summary (format_3f : float -> string) (py_str : pyobj -> string)
    (joint_list : list pyobj) : outcome string :=
  outcome_bind (outcome_map (joint_text format_3f py_str) (take 4 joint_list))
    (fun texts =>
       Returned (if (4 <? length joint_list)%nat
                 then String.concat ", " texts ++ ", ..."
                 else String.concat ", " texts)).

(** ** [mediapipe_stream_server.py]: from a MediaPipe result to a snapshot *)

(** A landmark as MediaPipe hands it out: three coordinates, and a
    [visibility] when the object has that attribute.  The attributes are
    floats already, [float(...)] leaves them as they are. *)
Record Landmark : Type := mkLandmark {
  landmark_x : float;
  landmark_y : float;
  landmark_z : float;
  landmark_visibility : option float
}.

(** What [extract_pose_data] uses of a result of [pose.process]: for each of
    the two attributes [None] or the [.landmark] sequence of the message (a
    message is truthy whatever it holds). *)
Record PoseResults : Type := mkPoseResults {
  pose_landmarks : option (list Landmark);
  pose_world_landmarks : option (list Landmark)
}.

(** A member of the enumeration [mp_pose.PoseLandmark]; the values are the
    non-negative positions MediaPipe assigns. *)
Record PoseLandmark : Type := mkPoseLandmark {
  name : string;
  value : nat
}.

Definition _landmark_dict (landmark : Landmark) : gmap string float :=
  {[ "x" := landmark_x landmark;
     "y" := landmark_y landmark;
     "z" := landmark_z landmark;
     "visibility" := default 0%float (landmark_visibility landmark) ]}.

(** [output[key] = v] on a dict held as its items in the order of insertion:
    a key that is there keeps its place and takes the new value. *)
Fixpoint dict_setitem {V} (key : string) (v : V) (output : list (string * V))
    : list (string * V) :=
  match output with
  | [] => [(key, v)]
  | (k, w) :: rest =>
      if String.eqb k key then (k, v) :: rest else (k, w) :: dict_setitem key v rest
  end.

(** What [extract_pose_data] ends with: its return value, or the
    [IndexError] of [world_landmarks[idx]]. *)
Inductive extraction : Type :=
  | Extracted (snapshot : option PoseSnapshot)
  | IndexError (idx : nat).

Section MediaPipe.

(** The members of the enumeration in the order of their definition
    ([list(mp_pose.PoseLandmark)]), [str.lower] and the clock are the
    libraries'. *)
Variable ALL_LANDMARKS : list PoseLandmark.
Variable str_lower : string -> string.
Variable now : float.

(** The [for] loop of [extract_pose_data], from the members still to visit
    and the [output] so far. *)
Fixpoint fill_output (world_landmarks : list Landmark) (members : list PoseLandmark)
    (output : list (string * gmap string float))
    : list (string * gmap string float) + nat :=
  match members with
  | [] => inl output
  | landmark_enum :: rest =>
      let idx := value landmark_enum in
      match world_landmarks !! idx with
      | Some landmark =>
          fill_output world_landmarks rest
            (dict_setitem (str_lower (name landmark_enum)) (_landmark_dict landmark) output)
      | None => inr idx
      end
  end.

Definition extract_pose_data (results : PoseResults) : extraction :=
  match pose_landmarks results, pose_world_landmarks results with
  | Some _, Some world_landmarks =>
      match fill_output world_landmarks ALL_LANDMARKS [] with
      | inl output => Extracted (Some (mkPoseSnapshot now output))
      | inr idx => IndexError idx
      end
  | _, _ => Extracted None
  end.

End MediaPipe.

(** The first members of MediaPipe's enumeration, and ASCII lower case, for
    the examples. *)
Definition first_pose_landmarks : list PoseLandmark :=
  [mkPoseLandmark "NOSE" 0; mkPoseLandmark "LEFT_EYE_INNER" 1; mkPoseLandmark "LEFT_EYE" 2].

Definition ascii_lower (s : string) : string :=
  string_of_list_ascii (lower <$> list_ascii_of_string s).

(** The line of the dump for a landmark of MediaPipe. *)
Definition landmark_record (idx : Z) (key : string) (landmark : Landmark) : LogRecord :=
  mkLog INFO MSG_KEYPOINT
    [ArgInt idx; ArgStr key;
     ArgFloat (landmark_x landmark); ArgFloat (landmark_y landmark);
     ArgFloat (landmark_z landmark);
     ArgFloat (default 0%float (landmark_visibility landmark))].

(** The assignments of the loop of [extract_pose_data], for members paired
    with their landmarks. *)
Definition assign (str_lower : string -> string)
    (output : list (string * gmap string float))
    (pairs : list (PoseLandmark * Landmark)) : list (string * gmap string float) :=
  foldl (fun o p => dict_setitem (str_lower (name p.1)) (_landmark_dict p.2) o) output pairs.

(** ** More sample data *)

(** [nose_snapshot] without the [confidence] of the nose. *)
Definition nose_snapshot_bare : PoseSnapshot :=
  mkPoseSnapshot 10.25
    [("nose", <[ "x" := 1 ]> (<[ "y" := 2 ]> {[ "z" := 3 ]}))%float;
     ("left_hip", <[ "x" := 0.5 ]> {[ "visibility" := 1 ]})%float].

(** A workspace whose next snapshot is the sixtieth. *)
Definition due_workspace : FusionWorkspace :=
  {| latest_upper_body := good_payload;
     latest_lower_body := None;
     _mp_frame_idx := Some 59 |}.


(** A text nested three deep, for a reader that gives up beyond two. *)
Definition nested_datagram : bytes := wire "[[[1]]]".

Definition recursion_error : exn := Exn RecursionError "maximum recursion depth exceeded".

(** A datagram whose [hmd] is [null]. *)
Definition null_hmd_datagram : bytes := wire "{'timestamp': 10.0, 'hmd': null}".

Definition null_hmd_packet : pyobj :=
  PyDict (<[ "timestamp" := PyFloat 10 ]> {[ "hmd" := PyNone ]}).

(** A joint as the headset sends it. *)
Definition joint (joint_name : string) (x y z : float) : pyobj :=
  PyDict (<[ "name" := PyStr joint_name ]>
          {[ "pose" := PyDict {[ "position" :=
               PyDict (<[ "x" := PyFloat x ]> (<[ "y" := PyFloat y ]> {[ "z" := PyFloat z ]})) ]} ]}).

Definition four_joints : list pyobj :=
  [joint "Hips" 0 1 0; joint "Spine" 0 1.25 0; joint "Neck" 0 1.5 0; joint "Head" 0 1.75 0]%float.

(** The examples below do not depend on how numbers and objects are
    written: these two stand in for [format(f, '.3f')] and [str]. *)
Definition write_3f (f : float) : string := "#.###".

Definition write_str (o : pyobj) : string :=
  match o with
  | PyStr s => s
  | _ => type_name o
  end.

(** A result of MediaPipe with three world landmarks, the last without a
    visibility, and an enumeration with two names that differ in case
    only. *)
Definition three_landmarks : list Landmark :=
  [mkLandmark 0.1 0.2 0.3 (Some 0.9); mkLandmark 0.4 0.5 0.6 (Some 0.8);
   mkLandmark 0.7 0.8 0.9 None]%float.

Definition three_landmark_results : PoseResults :=
  mkPoseResults (Some three_landmarks) (Some three_landmarks).

Definition clashing_pose_landmarks : list PoseLandmark :=
  [mkPoseLandmark "NOSE" 0; mkPoseLandmark "Nose" 2].

(** ** Properties *)

Section Properties.

Variable float_of_str : string -> option float.
Variable decode_utf8 : bytes -> outcome string.
Variable json_loads : string -> outcome pyobj.

(** *** How each method unfolds *)

Lemma log_workspace_state_unfold (ws : FusionWorkspace) :
  _log_workspace_state float_of_str ws = mkStep (Returned tt) ws (spec_sync float_of_str ws).
Proof.
  unfold _log_workspace_state, spec_sync, bind, get_self; simpl.
  destruct (latest_lower_body ws) as [lower|] eqn:Hlow;
    destruct (py_truthy (latest_upper_body ws)) eqn:Htruthy; simpl; try reflexivity.
  unfold try_except, bind, spec_upper_timestamp.
  destruct (latest_upper_body ws) as [| b | n | f | s | l | d]; simpl; try reflexivity.
  destruct (d !! "timestamp") as [v|]; simpl; [|reflexivity].
  destruct (py_float float_of_str v); reflexivity.
Qed.

#[local] Opaque _log_workspace_state.

Lemma handle_quest_packet_unfold (packet : pyobj) (addr : address) (ws : FusionWorkspace) :
  handle_quest_packet float_of_str packet addr ws =
  let ws' := set_latest_upper_body packet ws in
  match packet with
  | PyDict d =>
      match py_len (py_or (default (PyList []) (d !! "joints")) (PyList [])) with
      | Returned joint_count =>
          mkStep (Returned tt) ws'
            (mkLog INFO MSG_QUEST_PACKET
               [ArgAddr addr; ArgObj (default PyNone (d !! "timestamp")); ArgInt joint_count]
             :: spec_sync float_of_str ws')
      | Raised e => mkStep (Raised e) ws' []
      end
  | _ =>
      mkStep (Raised (Exn AttributeError ("'" ++ type_name packet ++ "' object has no attribute 'get'")))
        ws' []
  end.
Proof.
  unfold handle_quest_packet, bind, set_self; simpl.
  destruct packet as [| b | n | f | s | l | d]; simpl; try reflexivity.
  unfold default.
  destruct (py_len _) as [joint_count | e]; simpl; [|reflexivity].
  rewrite log_workspace_state_unfold. reflexivity.
Qed.

Lemma log_keypoints_unfold (items : list (string * gmap string float)) :
  forall (idx : Z) (ws : FusionWorkspace),
  exists out,
    log_keypoints idx items ws = mkStep (Returned tt) ws out
    /\ Forall (fun r => msg r = MSG_KEYPOINT) out
    /\ length out = length items.
Proof.
  induction items as [| [name lm] rest IH]; intros idx ws.
  - exists []. repeat split. constructor.
  - destruct (IH (idx + 1) ws) as (out & Hrun & Hmsg & Hlen).
    eexists (_ :: out). simpl. unfold bind, logger_info. simpl.
    rewrite Hrun. simpl. repeat split.
    + constructor; [reflexivity | exact Hmsg].
    + now rewrite Hlen.
Qed.

#[local] Opaque log_keypoints.

(** Records of keypoints are neither observations nor head lines. *)
Lemma keypoint_records_plain (out : list LogRecord) :
  Forall (fun r => msg r = MSG_KEYPOINT) out ->
  sync_observations out = [] /\ has_landmark_diagnostic out = false.
Proof.
  induction 1 as [| r out Hr _ [IHs IHd]]; [split; reflexivity|].
  unfold sync_observations, has_landmark_diagnostic, is_sync_observation,
    is_landmark_diagnostic in *.
  simpl. rewrite Hr. simpl. split; assumption.
Qed.

Lemma spec_sync_plain (ws : FusionWorkspace) :
  has_landmark_diagnostic (spec_sync float_of_str ws) = false
  /\ sync_observations (spec_sync float_of_str ws) = spec_sync float_of_str ws.
Proof.
  unfold spec_sync.
  destruct (latest_lower_body ws); [|split; reflexivity].
  destruct (py_truthy (latest_upper_body ws)); split; reflexivity.
Qed.

Lemma update_lower_body_unfold (snapshot : PoseSnapshot) (ws : FusionWorkspace) :
  let n := frame_count ws + 1 in
  let ws' := set_mp_frame_idx n (set_latest_lower_body (Some snapshot) ws) in
  exists dump,
    update_lower_body float_of_str snapshot ws
    = mkStep (Returned tt) ws' (dump ++ spec_sync float_of_str ws')
    /\ sync_observations dump = []
    /\ has_landmark_diagnostic dump = (n mod 60 =? 0)%Z.
Proof.
  intros n ws'. subst ws' n. unfold frame_count, default.
  unfold update_lower_body, bind, set_self, get_self, get_mp_frame_idx; simpl.
  destruct (_mp_frame_idx ws) as [k|]; simpl;
    try match goal with
        | |- context [(?x mod 60 =? 0)%Z] =>
            destruct (x mod 60 =? 0)%Z; simpl;
            [ destruct (landmarks snapshot) as [| item rest]; simpl | ]
        end.
  all: try solve [ rewrite log_workspace_state_unfold; simpl;
                   exists []; repeat split; reflexivity ].
  all: try solve [ rewrite log_workspace_state_unfold; simpl;
                   eexists [_]; repeat split; reflexivity ].
  all: match goal with
       | |- context [log_keypoints 1 ?items ?st] =>
           destruct (log_keypoints_unfold items 1 st) as (out & Hrun & Hmsg & _);
           rewrite Hrun; simpl;
           destruct (keypoint_records_plain out Hmsg) as [Hs Hd]
       end.
  all: rewrite log_workspace_state_unfold; simpl.
  all: eexists (_ :: out); repeat split; assumption.
Qed.

Lemma handle_quest_packet_state (packet : pyobj) (addr : address) (ws : FusionWorkspace) :
  state (handle_quest_packet float_of_str packet addr ws) = set_latest_upper_body packet ws.
Proof.
  rewrite handle_quest_packet_unfold.
  destruct packet as [| b | n | f | s | l | d]; try reflexivity.
  simpl. destruct (py_len _); reflexivity.
Qed.

Lemma update_lower_body_state (snapshot : PoseSnapshot) (ws : FusionWorkspace) :
  state (update_lower_body float_of_str snapshot ws)
  = set_mp_frame_idx (frame_count ws + 1) (set_latest_lower_body (Some snapshot) ws).
Proof.
  destruct (update_lower_body_unfold snapshot ws) as (dump & Hrun & _).
  rewrite Hrun. reflexivity.
Qed.

Lemma update_lower_body_returns (snapshot : PoseSnapshot) (ws : FusionWorkspace) :
  result (update_lower_body float_of_str snapshot ws) = Returned tt.
Proof.
  destruct (update_lower_body_unfold snapshot ws) as (dump & Hrun & _).
  rewrite Hrun. reflexivity.
Qed.

(** A call on a dict returns exactly when [len] accepts what stands for the
    joints: the [joints] value itself when it is truthy, the empty list
    otherwise. *)
Lemma handle_quest_packet_dict_result (d : gmap string pyobj) (addr : address)
    (ws : FusionWorkspace) :
  result (handle_quest_packet float_of_str (PyDict d) addr ws)
  = match py_len (py_or (default (PyList []) (d !! "joints")) (PyList [])) with
    | Returned _ => Returned tt
    | Raised e => Raised e
    end.
Proof.
  rewrite handle_quest_packet_unfold. simpl. destruct (py_len _); reflexivity.
Qed.

(** *** The claims *)

(** C9. [handle_quest_packet] replaces [latest_upper_body] by the packet as
    its first action, before it reads any field of the packet: whenever the
    call raises, the workspace already holds the new packet (the other two
    attributes are as before), so a failed call has changed the state. *)
Theorem handle_quest_packet_stores_before_raising
    (packet : pyobj) (addr : address) (ws : FusionWorkspace) (e : exn) :
  result (handle_quest_packet float_of_str packet addr ws) = Raised e ->
  let ws' := state (handle_quest_packet float_of_str packet addr ws) in
  latest_upper_body ws' = packet
  /\ latest_lower_body ws' = latest_lower_body ws
  /\ _mp_frame_idx ws' = _mp_frame_idx ws.
Proof.
  intros _ ws'. subst ws'. rewrite handle_quest_packet_state. repeat split.
Qed.

(** C6. The claim is that [handle_quest_packet] never raises on a JSON
    object.  On the object [{"joints": 5}] it does: the value is truthy, so
    [or] keeps it, and [len] of an [int] raises [TypeError]. *)
Theorem handle_quest_packet_raises_on_unsized_joints
    (addr : address) (ws : FusionWorkspace) :
  handle_quest_packet float_of_str (PyDict {[ "joints" := PyInt 5 ]}) addr ws
  = mkStep (Raised (Exn TypeError "object of type 'int' has no len()"))
      (set_latest_upper_body (PyDict {[ "joints" := PyInt 5 ]}) ws) [].
Proof.
  rewrite handle_quest_packet_unfold. reflexivity.
Qed.

Lemma run_calls_fields (calls : list call) :
  forall ws : FusionWorkspace,
    latest_upper_body (run_calls float_of_str calls ws)
    = default (latest_upper_body ws) (most_recent_upper calls)
    /\ latest_lower_body (run_calls float_of_str calls ws)
       = match most_recent_lower calls with
         | Some snapshot => Some snapshot
         | None => latest_lower_body ws
         end.
Proof.
  induction calls as [| c rest IH]; intros ws; [split; reflexivity|].
  cbn [run_calls most_recent_upper most_recent_lower].
  destruct (IH (state (run_call float_of_str c ws))) as [IHu IHl].
  rewrite IHu, IHl. clear IH IHu IHl.
  destruct c as [packet addr | snapshot]; cbn [run_call].
  - rewrite handle_quest_packet_state.
    destruct (most_recent_upper rest), (most_recent_lower rest); split; reflexivity.
  - rewrite update_lower_body_state.
    destruct (most_recent_upper rest), (most_recent_lower rest); split; reflexivity.
Qed.

(** C2. After any sequence of [handle_quest_packet] and [update_lower_body]
    calls on a new workspace, [latest_upper_body] is the packet of the most
    recent [handle_quest_packet] ([None] if there was none) and
    [latest_lower_body] is the snapshot of the most recent
    [update_lower_body] (absent if there was none), whatever timestamps the
    payloads carry; each call leaves the field of the other source as it
    was. *)
Theorem last_write_wins_per_source (calls : list call) :
  latest_upper_body (run_calls float_of_str calls __init__)
  = default PyNone (most_recent_upper calls)
  /\ latest_lower_body (run_calls float_of_str calls __init__) = most_recent_lower calls
  /\ (forall packet addr ws,
        latest_lower_body (state (handle_quest_packet float_of_str packet addr ws))
        = latest_lower_body ws)
  /\ (forall snapshot ws,
        latest_upper_body (state (update_lower_body float_of_str snapshot ws))
        = latest_upper_body ws).
Proof.
  destruct (run_calls_fields calls __init__) as [Hu Hl].
  split; [exact Hu|]. split.
  - rewrite Hl. simpl. destruct (most_recent_lower calls); reflexivity.
  - split; intros.
    + rewrite handle_quest_packet_state. reflexivity.
    + rewrite update_lower_body_state. reflexivity.
Qed.

Lemma update_lower_body_diagnostic (snapshot : PoseSnapshot) (ws : FusionWorkspace) :
  has_landmark_diagnostic (emitted (update_lower_body float_of_str snapshot ws))
  = ((frame_count ws + 1) mod 60 =? 0)%Z.
Proof.
  destruct (update_lower_body_unfold snapshot ws) as (dump & Hrun & _ & Hdiag).
  rewrite Hrun. cbn [emitted]. unfold has_landmark_diagnostic in *.
  rewrite existsb_app, Hdiag.
  destruct (spec_sync_plain
              (set_mp_frame_idx (frame_count ws + 1)
                 (set_latest_lower_body (Some snapshot) ws))) as [Hplain _].
  unfold has_landmark_diagnostic in Hplain. rewrite Hplain.
  apply orb_false_r.
Qed.

Lemma update_lower_body_count (snapshot : PoseSnapshot) (ws : FusionWorkspace) :
  frame_count (state (update_lower_body float_of_str snapshot ws)) = frame_count ws + 1.
Proof. rewrite update_lower_body_state. reflexivity. Qed.

Lemma run_lower_count (snapshots : list PoseSnapshot) :
  forall ws : FusionWorkspace,
    frame_count (run_calls float_of_str (map UpdateLower snapshots) ws)
    = frame_count ws + Z.of_nat (length snapshots).
Proof.
  induction snapshots as [| snapshot rest IH]; intros ws.
  - cbn [map run_calls length]. lia.
  - cbn [map run_calls run_call length]. rewrite IH, update_lower_body_count. lia.
Qed.

Lemma run_lower_diagnostics (snapshots : list PoseSnapshot) :
  forall ws : FusionWorkspace,
    map (fun r => has_landmark_diagnostic (emitted r))
      (run_trace float_of_str (map UpdateLower snapshots) ws)
    = map (fun k => ((frame_count ws + Z.of_nat k) mod 60 =? 0)%Z)
        (seq 1 (length snapshots)).
Proof.
  induction snapshots as [| snapshot rest IH]; intros ws; [reflexivity|].
  cbn [map run_trace run_call length seq].
  rewrite IH, update_lower_body_diagnostic, update_lower_body_count.
  f_equal. rewrite <- (seq_shift (length rest) 1), map_map.
  apply map_ext. intros k. f_equal. f_equal. lia.
Qed.

Lemma run_calls_count_monotone (calls : list call) :
  forall ws : FusionWorkspace,
    frame_count ws <= frame_count (run_calls float_of_str calls ws).
Proof.
  induction calls as [| c rest IH]; intros ws; cbn [run_calls]; [lia|].
  etransitivity; [|apply IH].
  destruct c as [packet addr | snapshot]; cbn [run_call].
  - rewrite handle_quest_packet_state. reflexivity.
  - rewrite update_lower_body_count. lia.
Qed.

(** The counter and the head line of the dump over [N] calls of
    [update_lower_body]. *)
Lemma frame_counter_and_head_lines (snapshots : list PoseSnapshot) (ws : FusionWorkspace) :
  let calls := map UpdateLower snapshots in
  frame_count __init__ = 0
  /\ frame_count (run_calls float_of_str calls ws)
     = frame_count ws + Z.of_nat (length snapshots)
  /\ map (fun r => has_landmark_diagnostic (emitted r)) (run_trace float_of_str calls ws)
     = map (fun k => ((frame_count ws + Z.of_nat k) mod 60 =? 0)%Z)
         (seq 1 (length snapshots))
  /\ (forall packet addr,
        frame_count (state (handle_quest_packet float_of_str packet addr ws))
        = frame_count ws)
  /\ (forall mixed : list call,
        frame_count ws <= frame_count (run_calls float_of_str mixed ws)).
Proof.
  intros calls. subst calls. split; [reflexivity|].
  split; [apply run_lower_count|].
  split; [apply run_lower_diagnostics|].
  split.
  - intros packet addr. rewrite handle_quest_packet_state. reflexivity.
  - intros mixed. apply run_calls_count_monotone.
Qed.

(** C7. Round trip: after [update_lower_body] has stored a snapshot, the
    workspace's [latest_lower_body] is that snapshot, with the same timestamp
    and the same landmarks, number for number; and it is the same mapping as
    any listing of the snapshot's landmarks in another order. *)
Theorem lower_body_round_trip (snapshot : PoseSnapshot) (ws : FusionWorkspace) :
  let stored := latest_lower_body (state (update_lower_body float_of_str snapshot ws)) in
  stored = Some snapshot
  /\ timestamp <$> stored = Some (timestamp snapshot)
  /\ landmarks <$> stored = Some (landmarks snapshot)
  /\ (forall items,
        items ≡ₚ landmarks snapshot -> NoDup (items.*1) ->
        as_mapping <$> (landmarks <$> stored) = Some (as_mapping items)).
Proof.
  intros stored. subst stored. rewrite update_lower_body_state. cbn.
  repeat split. intros items Hperm Hnodup.
  f_equal. unfold as_mapping. symmetry. now apply list_to_map_proper.
Qed.

Lemma step_eta {S A} (r : Step S A) : mkStep (result r) (state r) (emitted r) = r.
Proof. destruct r; reflexivity. Qed.

Lemma datagram_received_decoded {S} (self : PosePacketProtocol S) (data : bytes)
    (addr : address) (payload : pyobj) (s : S) :
  outcome_bind (decode_utf8 data) json_loads = Returned payload ->
  datagram_received decode_utf8 json_loads self data addr s = _handler self payload addr s.
Proof.
  intros Hdec. unfold datagram_received, try_except, bind, eval.
  rewrite Hdec. simpl. apply step_eta.
Qed.

Lemma datagram_received_dropped {S} (self : PosePacketProtocol S) (data : bytes)
    (addr : address) (e : exn) (s : S) :
  outcome_bind (decode_utf8 data) json_loads = Raised e ->
  is_decode_error e = true ->
  datagram_received decode_utf8 json_loads self data addr s
  = mkStep (Returned tt) s [mkLog WARNING MSG_DECODE_FAILED [ArgAddr addr; ArgExn e]].
Proof.
  intros Hdec Hcls. unfold datagram_received, try_except, bind, eval.
  rewrite Hdec. simpl. rewrite Hcls. reflexivity.
Qed.


(** C1. A datagram whose bytes decode as UTF-8 and whose text parses as
    JSON makes the listener run the registered handler on the parsed payload
    and the sender address, exactly once: [datagram_received] is that one
    call of the handler, and a handler that records its calls has recorded
    this one and no other.  When the handler is the workspace's
    [handle_quest_packet], [latest_upper_body] is the parsed payload
    afterwards. *)
Theorem datagram_dispatched_once_and_stored {S} (self : PosePacketProtocol S)
    (data : bytes) (addr : address) (text : string) (payload : pyobj) :
  decode_utf8 data = Returned text ->
  json_loads text = Returned payload ->
  (forall s : S,
     datagram_received decode_utf8 json_loads self data addr s
     = _handler self payload addr s)
  /\ (forall calls,
        state (datagram_received decode_utf8 json_loads
                 (mkPosePacketProtocol recording_handler) data addr calls)
        = (calls ++ [(payload, addr)])%list)
  /\ (forall ws,
        latest_upper_body
          (state (datagram_received decode_utf8 json_loads
                    (mkPosePacketProtocol (handle_quest_packet float_of_str))
                    data addr ws))
        = payload).
Proof.
  intros Hraw Hjson.
  assert (Hdec : outcome_bind (decode_utf8 data) json_loads = Returned payload)
    by (rewrite Hraw; exact Hjson).
  split; [|split].
  - intros s. now apply datagram_received_decoded.
  - intros calls. rewrite (datagram_received_decoded _ _ _ payload) by exact Hdec.
    reflexivity.
  - intros ws. rewrite (datagram_received_decoded _ _ _ payload) by exact Hdec.
    cbn [_handler]. rewrite handle_quest_packet_state. reflexivity.
Qed.


Lemma update_lower_body_observations (snapshot : PoseSnapshot) (ws : FusionWorkspace) :
  sync_observations (emitted (update_lower_body float_of_str snapshot ws))
  = if py_truthy (latest_upper_body ws)
    then [sync_record (spec_upper_timestamp float_of_str (latest_upper_body ws))
            (timestamp snapshot)]
    else [].
Proof.
  destruct (update_lower_body_unfold snapshot ws) as (dump & Hrun & Hnone & _).
  rewrite Hrun. cbn [emitted]. unfold sync_observations in *.
  rewrite List.filter_app, Hnone. cbn [app].
  destruct (spec_sync_plain
              (set_mp_frame_idx (frame_count ws + 1)
                 (set_latest_lower_body (Some snapshot) ws))) as [_ Hsame].
  unfold sync_observations in Hsame. rewrite Hsame. reflexivity.
Qed.

Lemma handle_quest_packet_observations (packet : pyobj) (addr : address)
    (ws : FusionWorkspace) :
  sync_observations (emitted (handle_quest_packet float_of_str packet addr ws))
  = match result (handle_quest_packet float_of_str packet addr ws), latest_lower_body ws with
    | Returned _, Some lower =>
        if py_truthy packet
        then [sync_record (spec_upper_timestamp float_of_str packet) (timestamp lower)]
        else []
    | _, _ => []
    end.
Proof.
  rewrite handle_quest_packet_unfold.
  destruct packet as [| b | n | f | s | l | d]; try reflexivity.
  cbv zeta. destruct (py_len _); [|reflexivity].
  cbn [result emitted]. unfold sync_observations.
  change (List.filter is_sync_observation (?r :: ?rest))
    with (List.filter is_sync_observation rest).
  destruct (spec_sync_plain (set_latest_upper_body (PyDict d) ws)) as [_ Hsame].
  unfold sync_observations in Hsame. rewrite Hsame. reflexivity.
Qed.

(** C3, as the code has it.  When [update_lower_body] completes, or
    [handle_quest_packet] returns, and the workspace holds a lower-body
    snapshot and an upper-body packet that is truthy (not [None], and not an
    empty object), exactly one synchronization observation is emitted; its
    value is the snapshot's timestamp minus the upper-body timestamp, which
    is [float] of the packet's [timestamp] and 0.0 when the key is absent or
    [float] rejects the value.  With 10.0 above and 10.25 below the value is
    0.25.  No observation is emitted when a side is absent, nor when the
    upper-body packet is falsy, nor by a call that raises. *)
Theorem sync_observation_after_update (ws : FusionWorkspace) :
  (forall snapshot,
     let r := update_lower_body float_of_str snapshot ws in
     result r = Returned tt
     /\ sync_observations (emitted r)
        = if py_truthy (latest_upper_body ws)
          then [sync_record (spec_upper_timestamp float_of_str (latest_upper_body ws))
                  (timestamp snapshot)]
          else [])
  /\ (forall packet addr,
        let r := handle_quest_packet float_of_str packet addr ws in
        sync_observations (emitted r)
        = match result r, latest_lower_body ws with
          | Returned _, Some lower =>
              if py_truthy packet
              then [sync_record (spec_upper_timestamp float_of_str packet) (timestamp lower)]
              else []
          | _, _ => []
          end)
  /\ (forall lm,
        sync_observations
          (emitted (update_lower_body float_of_str (mkPoseSnapshot 10.25 lm)
                      (set_latest_upper_body (PyDict {[ "timestamp" := PyFloat 10 ]}) ws)))
        = [mkLog INFO MSG_FUSION_READY [ArgFloat 10; ArgFloat 10.25; ArgFloat 0.25]])
  /\ (forall snapshot,
        sync_observations
          (emitted (update_lower_body float_of_str snapshot (set_latest_upper_body PyNone ws)))
        = [])
  /\ (forall packet addr,
        sync_observations
          (emitted (handle_quest_packet float_of_str packet addr
                      (set_latest_lower_body None ws)))
        = []).
Proof.
  split; [|split; [|split; [|split]]].
  - intros snapshot r. subst r. split.
    + apply update_lower_body_returns.
    + apply update_lower_body_observations.
  - intros packet addr r. subst r. apply handle_quest_packet_observations.
  - intros lm. rewrite update_lower_body_observations. reflexivity.
  - intros snapshot. rewrite update_lower_body_observations. reflexivity.
  - intros packet addr. rewrite handle_quest_packet_observations.
    cbn [latest_lower_body set_latest_lower_body].
    destruct (result _); reflexivity.
Qed.

(** C10. The upper-body timestamp is coerced, not type-checked: with a
    stored packet that is a non-empty dict and a lower-body snapshot present,
    [_log_workspace_state] emits the observation computed with [float(v)] for
    every timestamp value [v] that [float] accepts, among them the strings
    it can read and the booleans (1.0 and 0.0), and with the default 0.0 only
    when the key is absent or [float(v)] raises. *)
Theorem upper_timestamp_is_coerced
    (ws : FusionWorkspace) (d : gmap string pyobj) (lower : PoseSnapshot) :
  latest_upper_body ws = PyDict d ->
  d <> ∅ ->
  latest_lower_body ws = Some lower ->
  _log_workspace_state float_of_str ws
  = mkStep (Returned tt) ws
      [sync_record
         match d !! "timestamp" with
         | Some v =>
             match py_float float_of_str v with
             | Returned f => f
             | Raised _ => 0%float
             end
         | None => 0%float
         end
         (timestamp lower)]
  /\ (forall s f, float_of_str s = Some f -> py_float float_of_str (PyStr s) = Returned f)
  /\ (forall b : bool,
        py_float float_of_str (PyBool b) = Returned (if b then 1 else 0)%float).
Proof.
  intros Hupper Hne Hlower. split; [|split].
  - rewrite log_workspace_state_unfold. unfold spec_sync.
    rewrite Hlower, Hupper. cbn [py_truthy spec_upper_timestamp].
    apply map_size_non_empty_iff in Hne.
    destruct (size d); [congruence|]. reflexivity.
  - intros s f Hread. cbn [py_float]. rewrite Hread. reflexivity.
  - intros b. reflexivity.
Qed.

End Properties.

(** ** The model at work

    The properties above at the sample datagrams and snapshots, with the
    reference runtime. *)

Lemma datagram_dispatched_once_and_stored_witness :
  utf8_decode good_datagram = Returned (string_of_list_byte good_datagram)
  /\ json_read (string_of_list_byte good_datagram) = Returned good_payload
  /\ receive good_datagram __init__
     = handle_quest_packet float_read good_payload quest_addr __init__
  /\ latest_upper_body (state (receive good_datagram __init__)) = good_payload.
Proof.
  assert (Hraw : utf8_decode good_datagram = Returned (string_of_list_byte good_datagram))
    by (vm_compute; reflexivity).
  assert (Hjson : json_read (string_of_list_byte good_datagram) = Returned good_payload)
    by (vm_compute; reflexivity).
  destruct (datagram_dispatched_once_and_stored float_read utf8_decode json_read
              quest_listener good_datagram quest_addr _ _ Hraw Hjson)
    as (Honce & _ & Hstored).
  split; [exact Hraw|]. split; [exact Hjson|]. split.
  - apply Honce.
  - apply Hstored.
Defined.


(** A text that is UTF-8 and not JSON is dropped in the same way. *)
Example truncated_json_dropped :
  let data := wire "{'timestamp': 10.0" in
  result (receive data __init__) = Returned tt
  /\ state (receive data __init__) = __init__
  /\ map levelname (emitted (receive data __init__)) = [WARNING].
Proof. vm_compute. repeat split. Qed.


Example unsized_joints_received :
  outcome_bind (utf8_decode unsized_joints_datagram) json_read = Returned unsized_joints_packet
  /\ result (receive unsized_joints_datagram __init__)
     = Raised (Exn TypeError "object of type 'int' has no len()").
Proof. vm_compute. split; reflexivity. Qed.

Lemma handle_quest_packet_stores_before_raising_witness :
  result (handle_quest_packet float_read unsized_joints_packet quest_addr __init__)
  = Raised (Exn TypeError "object of type 'int' has no len()")
  /\ latest_upper_body
       (state (handle_quest_packet float_read unsized_joints_packet quest_addr __init__))
     = unsized_joints_packet.
Proof.
  assert (Hraised :
            result (handle_quest_packet float_read unsized_joints_packet quest_addr __init__)
            = Raised (Exn TypeError "object of type 'int' has no len()"))
    by (vm_compute; reflexivity).
  split; [exact Hraised|].
  apply (handle_quest_packet_stores_before_raising float_read
           unsized_joints_packet quest_addr __init__ _ Hraised).
Defined.

(** C3 as stated fails on the empty object: after the datagram [{}] and a
    snapshot both fields are present, the two calls have returned, and no
    observation has been emitted. *)
Lemma no_sync_observation_for_empty_packet :
  let upper := receive (wire "{}") __init__ in
  let lower := update_lower_body float_read nose_snapshot (state upper) in
  result upper = Returned tt
  /\ result lower = Returned tt
  /\ latest_upper_body (state lower) = PyDict ∅
  /\ latest_lower_body (state lower) = Some nose_snapshot
  /\ sync_observations (emitted upper ++ emitted lower) = [].
Proof. vm_compute. repeat split. Qed.

(** The same two calls with a packet that has a timestamp. *)
Example sync_observation_quarter_second :
  let upper := receive good_datagram __init__ in
  let lower := update_lower_body float_read nose_snapshot (state upper) in
  emitted lower = [mkLog INFO MSG_FUSION_READY [ArgFloat 10; ArgFloat 10.25; ArgFloat 0.25]].
Proof. vm_compute. reflexivity. Qed.

Lemma upper_timestamp_is_coerced_witness :
  latest_upper_body string_timestamp_workspace = PyDict {[ "timestamp" := PyStr "10.5" ]}
  /\ latest_lower_body string_timestamp_workspace = Some nose_snapshot
  /\ _log_workspace_state float_read string_timestamp_workspace
     = mkStep (Returned tt) string_timestamp_workspace
         [mkLog INFO MSG_FUSION_READY [ArgFloat 10.5; ArgFloat 10.25; ArgFloat (-0.25)]].
Proof.
  split; [reflexivity|]. split; [reflexivity|].
  destruct (upper_timestamp_is_coerced float_read string_timestamp_workspace
              {[ "timestamp" := PyStr "10.5" ]} nose_snapshot
              eq_refl (map_non_empty_singleton _ _) eq_refl) as [Hlog _].
  rewrite Hlog. vm_compute. reflexivity.
Defined.

(** A boolean timestamp counts as 1.0, a list as the default. *)
Example boolean_and_list_timestamps :
  sync_observations
    (emitted (update_lower_body float_read nose_snapshot
                (set_latest_upper_body (PyDict {[ "timestamp" := PyBool true ]}) __init__)))
  = [sync_record 1 10.25]
  /\ sync_observations
       (emitted (update_lower_body float_read nose_snapshot
                   (set_latest_upper_body (PyDict {[ "timestamp" := PyList [] ]}) __init__)))
     = [sync_record 0 10.25].
Proof. vm_compute. split; reflexivity. Qed.

(** The landmarks of [nose_snapshot] listed in the other order. *)
Lemma lower_body_round_trip_witness :
  let stored :=
    latest_lower_body (state (update_lower_body float_read nose_snapshot __init__)) in
  stored = Some nose_snapshot
  /\ as_mapping <$> (landmarks <$> stored)
     = Some (as_mapping (rev (landmarks nose_snapshot))).
Proof.
  destruct (lower_body_round_trip float_read nose_snapshot __init__)
    as (Hstored & _ & _ & Hmapping).
  split; [exact Hstored|].
  apply Hmapping.
  - apply perm_swap.
  - apply (bool_decide_unpack _). vm_compute. reflexivity.
Defined.

(** A late packet with an older timestamp replaces a newer one. *)
Example stale_packet_overwrites :
  latest_upper_body
    (run_calls float_read
       [UpdateUpper (PyDict {[ "timestamp" := PyFloat 20 ]}) quest_addr;
        UpdateLower nose_snapshot;
        UpdateUpper (PyDict {[ "timestamp" := PyFloat 5 ]}) quest_addr]
       __init__)
  = PyDict {[ "timestamp" := PyFloat 5 ]}.
Proof. vm_compute. reflexivity. Qed.

(** In 121 calls on a new workspace the dump comes with the 60th and the
    120th and with no other. *)
Example dump_on_60th_and_120th :
  map (fun r => has_landmark_diagnostic (emitted r))
    (run_trace float_read (map UpdateLower (repeat nose_snapshot 121)) __init__)
  = (repeat false 59 ++ [true] ++ repeat false 59 ++ [true; false])%list.
Proof. vm_compute. reflexivity. Qed.

(** ** Further properties of the workspace and the listener *)

Section MoreProperties.

Variable float_of_str : string -> option float.
Variable decode_utf8 : bytes -> outcome string.
Variable json_loads : string -> outcome pyobj.

#[local] Opaque _log_workspace_state.

Lemma handle_quest_packet_raised_class
    (packet : pyobj) (addr : address) (ws : FusionWorkspace) :
  exn_cls <$> raised (result (handle_quest_packet float_of_str packet addr ws))
  = match packet with
    | PyDict d =>
        let joints := default (PyList []) (d !! "joints") in
        if py_truthy joints && negb (has_len joints) then Some TypeError else None
    | _ => Some AttributeError
    end.
Proof.
  rewrite handle_quest_packet_unfold.
  destruct packet as [| b | n | f | s | l | d]; try reflexivity.
  cbv zeta. unfold py_or.
  destruct (default (PyList []) (d !! "joints")) as [| b | n | f | s | l | d'];
    cbn [py_truthy has_len negb andb]; try reflexivity.
  - destruct b; reflexivity.
  - destruct (negb (n =? 0)%Z); reflexivity.
  - destruct (negb (f =? 0)%float); reflexivity.
  - destruct s; reflexivity.
  - destruct l; reflexivity.
  - destruct (negb (size d' =? 0)%nat); reflexivity.
Qed.

(** X1. [handle_quest_packet] raises in two cases and in no other: with
    [AttributeError] when the packet is not a dict, and with [TypeError] when
    it is a dict whose [joints] value is truthy and has no length (a number
    other than zero, or [true]).  A dict whose [joints] is missing, falsy, or
    a string, list or dict makes it return. *)
Theorem handle_quest_packet_outcome
    (packet : pyobj) (addr : address) (ws : FusionWorkspace) :
  exn_cls <$> raised (result (handle_quest_packet float_of_str packet addr ws))
  = match packet with
    | PyDict d =>
        let joints := default (PyList []) (d !! "joints") in
        if py_truthy joints && negb (has_len joints) then Some TypeError else None
    | _ => Some AttributeError
    end.
Proof. apply handle_quest_packet_raised_class. Qed.

Lemma log_keypoints_records (items : list (string * gmap string float)) :
  forall (idx : Z) (ws : FusionWorkspace),
    log_keypoints idx items ws
    = mkStep (Returned tt) ws
        (imap (fun i item => keypoint_record (idx + Z.of_nat i) item.1 item.2) items).
Proof.
  induction items as [| [name lm] rest IH]; intros idx ws; [reflexivity|].
  cbn [log_keypoints imap]. unfold bind, logger_info. cbn [result state emitted app].
  rewrite IH. cbn [result state emitted]. f_equal.
  unfold keypoint_record at 2. cbn [fst snd]. rewrite Z.add_0_r. f_equal.
  apply imap_ext. intros i item _. cbn. f_equal. lia.
Qed.

Lemma log_keypoints_from_one (items : list (string * gmap string float))
    (ws : FusionWorkspace) :
  log_keypoints 1 items ws
  = mkStep (Returned tt) ws
      (imap (fun i item => keypoint_record (Z.of_nat i + 1) item.1 item.2) items).
Proof.
  rewrite log_keypoints_records. f_equal.
  apply imap_ext. intros i item _. cbn. f_equal. lia.
Qed.

#[local] Opaque log_keypoints.

Lemma update_lower_body_emitted (snapshot : PoseSnapshot) (ws : FusionWorkspace) :
  emitted (update_lower_body float_of_str snapshot ws)
  = ((if ((frame_count ws + 1) mod 60 =? 0)%Z then landmark_dump snapshot else [])
     ++ spec_sync float_of_str (state (update_lower_body float_of_str snapshot ws)))%list.
Proof.
  rewrite update_lower_body_state.
  unfold frame_count, default, landmark_dump.
  unfold update_lower_body, bind, set_self, get_self, get_mp_frame_idx; simpl.
  destruct (_mp_frame_idx ws) as [k|]; simpl;
    try match goal with
        | |- context [(?x mod 60 =? 0)%Z] =>
            destruct (x mod 60 =? 0)%Z; simpl;
            [ destruct (landmarks snapshot) as [| item rest]; simpl | ]
        end.
  all: try rewrite log_keypoints_from_one; simpl.
  all: rewrite log_workspace_state_unfold; reflexivity.
Qed.

(** X2. What [update_lower_body] emits.  On a call that leaves the counter
    at a multiple of 60: the head line with the snapshot's timestamp and the
    number of its landmarks, then one line per landmark, numbered from 1 in
    the order of the dict, with the landmark's name and its [x], [y], [z] and
    [visibility] entries (0.0 for a missing one), or the single
    no-landmarks line; after that the synchronization observation, if there
    is one.  On every other call the observation alone. *)
Theorem update_lower_body_emits (snapshot : PoseSnapshot) (ws : FusionWorkspace) :
  emitted (update_lower_body float_of_str snapshot ws)
  = ((if ((frame_count ws + 1) mod 60 =? 0)%Z then landmark_dump snapshot else [])
     ++ spec_sync float_of_str (state (update_lower_body float_of_str snapshot ws)))%list.
Proof. apply update_lower_body_emitted. Qed.

Lemma keypoint_lines_agree (items items' : list (string * gmap string float)) :
  Forall2 (fun item item' => item.1 = item'.1 /\ same_reading item.2 item'.2) items items' ->
  forall number : nat -> Z,
    imap (fun i item => keypoint_record (number i) item.1 item.2) items
    = imap (fun i item => keypoint_record (number i) item.1 item.2) items'.
Proof.
  induction 1 as [| [name lm] [name' lm'] rest rest' [Hname Hread] _ IH];
    intros number; [reflexivity|].
  cbn [imap fst snd] in *. f_equal.
  - destruct Hread as (Hx & Hy & Hz & Hv). subst name'.
    unfold keypoint_record. now rewrite Hx, Hy, Hz, Hv.
  - apply (IH (fun i => number (S i))).
Qed.

(** X3. The dump reads a landmark only through its name and its [x], [y],
    [z] and [visibility] entries: two snapshots with the same timestamp whose
    landmarks agree on these, one by one, make [update_lower_body] emit the
    same records.  Any other entry of a landmark, a [confidence] say, is
    never looked at. *)
Theorem dump_reads_four_entries (snapshot snapshot' : PoseSnapshot) (ws : FusionWorkspace) :
  timestamp snapshot = timestamp snapshot' ->
  Forall2 (fun item item' => item.1 = item'.1 /\ same_reading item.2 item'.2)
    (landmarks snapshot) (landmarks snapshot') ->
  emitted (update_lower_body float_of_str snapshot ws)
  = emitted (update_lower_body float_of_str snapshot' ws).
Proof.
  intros Hts Hitems. rewrite !update_lower_body_emitted, !update_lower_body_state.
  f_equal.
  - destruct (_ =? _)%Z; [|reflexivity].
    unfold landmark_dump. rewrite <- Hts.
    rewrite <- (Forall2_length _ _ _ Hitems).
    rewrite (keypoint_lines_agree _ _ Hitems (fun i => (Z.of_nat i + 1)%Z)).
    destruct Hitems; reflexivity.
  - unfold spec_sync. cbn. now rewrite Hts.
Qed.

Lemma most_recent_lower_none (calls : list call) :
  most_recent_lower calls = None <-> lower_calls calls = 0%nat.
Proof.
  unfold lower_calls.
  induction calls as [| c rest IH]; [split; reflexivity|].
  cbn [most_recent_lower List.filter].
  destruct c as [packet addr | snapshot].
  - destruct (most_recent_lower rest); [|exact IH].
    split; [discriminate|]. intros H. apply IH in H. discriminate.
  - cbn [length]. destruct (most_recent_lower rest); split; discriminate.
Qed.

Lemma run_calls_count (calls : list call) :
  forall ws : FusionWorkspace,
    frame_count (run_calls float_of_str calls ws)
    = frame_count ws + Z.of_nat (lower_calls calls).
Proof.
  unfold lower_calls.
  induction calls as [| c rest IH]; intros ws; cbn [run_calls List.filter]; [cbn; lia|].
  rewrite IH. destruct c as [packet addr | snapshot]; cbn [run_call length].
  - rewrite handle_quest_packet_state. reflexivity.
  - rewrite update_lower_body_count. lia.
Qed.

Lemma run_calls_attribute (calls : list call) :
  forall ws : FusionWorkspace,
    _mp_frame_idx (run_calls float_of_str calls ws) = None
    <-> _mp_frame_idx ws = None /\ lower_calls calls = 0%nat.
Proof.
  unfold lower_calls.
  induction calls as [| c rest IH]; intros ws; cbn [run_calls List.filter].
  - cbn. tauto.
  - rewrite IH. destruct c as [packet addr | snapshot]; cbn [run_call length].
    + rewrite handle_quest_packet_state. reflexivity.
    + rewrite update_lower_body_state. cbn. split; [intros [H _]|intros [_ H]]; discriminate.
Qed.

(** X4. The counter and the lower-body field go together.  After any
    sequence of calls on a new workspace the counter is the number of
    [update_lower_body] calls made, whatever [handle_quest_packet] calls came
    between and whether they raised; the attribute [_mp_frame_idx] is missing
    exactly when no snapshot was ever stored, and so is [latest_lower_body]:
    once a snapshot is stored the field is never empty again. *)
Theorem counter_follows_lower_body (calls : list call) :
  let ws := run_calls float_of_str calls __init__ in
  frame_count ws = Z.of_nat (lower_calls calls)
  /\ (_mp_frame_idx ws = None <-> lower_calls calls = 0%nat)
  /\ (latest_lower_body ws = None <-> lower_calls calls = 0%nat).
Proof.
  intros ws. subst ws. split; [|split].
  - rewrite run_calls_count. reflexivity.
  - rewrite run_calls_attribute. cbn. tauto.
  - destruct (run_calls_fields float_of_str calls __init__) as [_ Hlower].
    rewrite Hlower. cbn [latest_lower_body __init__].
    rewrite <- most_recent_lower_none.
    destruct (most_recent_lower calls); split; congruence.
Qed.

Lemma sync_observations_app (out out' : list LogRecord) :
  sync_observations (out ++ out') = (sync_observations out ++ sync_observations out')%list.
Proof. apply List.filter_app. Qed.

Lemma keypoint_lines_plain (items : list (string * gmap string float)) :
  forall number : nat -> Z,
    sync_observations
      (imap (fun i item => keypoint_record (number i) item.1 item.2) items) = [].
Proof.
  induction items as [| [name lm] more IH]; intros number; [reflexivity|].
  cbn [imap]. apply (IH (fun i => number (S i))).
Qed.

Lemma landmark_dump_plain (snapshot : PoseSnapshot) :
  sync_observations (landmark_dump snapshot) = [].
Proof.
  unfold landmark_dump. destruct (landmarks snapshot) as [| item rest]; [reflexivity|].
  apply (keypoint_lines_plain (item :: rest)).
Qed.

Lemma keypoint_lines_kept (items : list (string * gmap string float)) :
  forall number : nat -> Z,
    landmark_diagnostic (imap (fun i item => keypoint_record (number i) item.1 item.2) items)
    = imap (fun i item => keypoint_record (number i) item.1 item.2) items.
Proof.
  induction items as [| [name lm] more IH]; intros number; [reflexivity|].
  cbn [imap]. unfold landmark_diagnostic. cbn [List.filter].
  replace (is_landmark_line (keypoint_record (number 0%nat) (name, lm).1 (name, lm).2))
    with true by reflexivity.
  f_equal. apply (IH (fun i => number (S i))).
Qed.

Lemma landmark_dump_kept (snapshot : PoseSnapshot) :
  landmark_diagnostic (landmark_dump snapshot) = landmark_dump snapshot.
Proof.
  unfold landmark_dump. destruct (landmarks snapshot) as [| item rest]; [reflexivity|].
  unfold landmark_diagnostic. cbn [List.filter].
  match goal with
  | |- context [is_landmark_line ?r] => replace (is_landmark_line r) with true by reflexivity
  end.
  f_equal. apply (keypoint_lines_kept (item :: rest)).
Qed.

Lemma spec_sync_no_landmark_lines (ws : FusionWorkspace) :
  landmark_diagnostic (spec_sync float_of_str ws) = [].
Proof.
  unfold spec_sync. destruct (latest_lower_body ws); [|reflexivity].
  destruct (py_truthy (latest_upper_body ws)); reflexivity.
Qed.

Lemma update_lower_body_landmark_lines (snapshot : PoseSnapshot) (ws : FusionWorkspace) :
  landmark_diagnostic (emitted (update_lower_body float_of_str snapshot ws))
  = if ((frame_count ws + 1) mod 60 =? 0)%Z then landmark_dump snapshot else [].
Proof.
  rewrite update_lower_body_emitted. unfold landmark_diagnostic.
  rewrite List.filter_app.
  change (List.filter is_landmark_line (spec_sync float_of_str ?ws'))
    with (landmark_diagnostic (spec_sync float_of_str ws')).
  rewrite spec_sync_no_landmark_lines, app_nil_r.
  destruct (_ =? _)%Z; [apply landmark_dump_kept | reflexivity].
Qed.

Lemma handle_quest_packet_no_landmark_lines
    (packet : pyobj) (addr : address) (ws : FusionWorkspace) :
  landmark_diagnostic (emitted (handle_quest_packet float_of_str packet addr ws)) = [].
Proof.
  rewrite handle_quest_packet_unfold. cbv zeta.
  destruct packet as [| b | n | f | s | l | d]; try reflexivity.
  destruct (py_len _) as [joint_count | e]; [|reflexivity].
  cbn [emitted]. unfold landmark_diagnostic. cbn [List.filter].
  match goal with
  | |- context [is_landmark_line ?r] => replace (is_landmark_line r) with false by reflexivity
  end.
  apply spec_sync_no_landmark_lines.
Qed.

Lemma run_lower_landmark_lines (snapshots : list PoseSnapshot) :
  forall ws : FusionWorkspace,
    map (fun r => landmark_diagnostic (emitted r))
      (run_trace float_of_str (map UpdateLower snapshots) ws)
    = imap (fun k snapshot =>
              if ((frame_count ws + Z.of_nat (S k)) mod 60 =? 0)%Z
              then landmark_dump snapshot else [])
        snapshots.
Proof.
  induction snapshots as [| snapshot rest IH]; intros ws; [reflexivity|].
  cbn [map run_trace run_call imap].
  rewrite IH, update_lower_body_landmark_lines, update_lower_body_count.
  f_equal. apply imap_ext. intros k later _. unfold compose.
  replace (frame_count ws + 1 + Z.of_nat (S k)) with (frame_count ws + Z.of_nat (S (S k)))
    by lia.
  reflexivity.
Qed.

(** C4. [N] calls of [update_lower_body] raise the call counter by exactly
    [N]: it counts from 0 (the attribute does not exist before the first
    call), each call adds one, and no sequence of calls of the two methods
    resets or lowers it.  The landmark diagnostic, that is the head line and
    the keypoint lines together, is emitted by the call number [k] exactly
    when the counter it leaves, the former count plus [k], is a multiple of
    60: that call emits the whole dump of its snapshot, which is never
    empty, and every other call emits no line of it; on a new workspace
    these are the 60th, 120th, ... calls and no others.
    [handle_quest_packet] neither moves the counter nor emits a line of the
    diagnostic. *)
Theorem frame_counter_and_throttle (snapshots : list PoseSnapshot) (ws : FusionWorkspace) :
  let calls := map UpdateLower snapshots in
  frame_count __init__ = 0
  /\ frame_count (run_calls float_of_str calls ws)
     = frame_count ws + Z.of_nat (length snapshots)
  /\ map (fun r => landmark_diagnostic (emitted r)) (run_trace float_of_str calls ws)
     = imap (fun k snapshot =>
               if ((frame_count ws + Z.of_nat (S k)) mod 60 =? 0)%Z
               then landmark_dump snapshot else [])
         snapshots
  /\ (forall snapshot, landmark_dump snapshot <> [])
  /\ map (fun r => has_landmark_diagnostic (emitted r)) (run_trace float_of_str calls ws)
     = map (fun k => ((frame_count ws + Z.of_nat k) mod 60 =? 0)%Z)
         (seq 1 (length snapshots))
  /\ (forall packet addr,
        frame_count (state (handle_quest_packet float_of_str packet addr ws))
        = frame_count ws
        /\ landmark_diagnostic (emitted (handle_quest_packet float_of_str packet addr ws))
           = [])
  /\ (forall mixed : list call,
        frame_count ws <= frame_count (run_calls float_of_str mixed ws)).
Proof.
  intros calls. subst calls.
  destruct (frame_counter_and_head_lines float_of_str snapshots ws)
    as (Hzero & Hcount & Hhead & Hupper & Hmixed).
  split; [exact Hzero|]. split; [exact Hcount|].
  split; [apply run_lower_landmark_lines|].
  split; [intros snapshot; unfold landmark_dump; destruct (landmarks snapshot); discriminate|].
  split; [exact Hhead|]. split; [|exact Hmixed].
  intros packet addr. split; [apply Hupper | apply handle_quest_packet_no_landmark_lines].
Qed.

Lemma muted_lower_updates (snapshots : list PoseSnapshot) :
  forall ws : FusionWorkspace,
    py_truthy (latest_upper_body ws) = false ->
    sync_observations (records (run_trace float_of_str (map UpdateLower snapshots) ws)) = [].
Proof.
  unfold records.
  induction snapshots as [| snapshot rest IH]; intros ws Hfalsy; [reflexivity|].
  cbn [map run_trace run_call concat]. rewrite sync_observations_app.
  rewrite IH by (rewrite update_lower_body_state; exact Hfalsy).
  rewrite update_lower_body_emitted, sync_observations_app, update_lower_body_state.
  unfold spec_sync. cbn [latest_upper_body latest_lower_body set_mp_frame_idx
                          set_latest_lower_body].
  rewrite Hfalsy.
  destruct (_ =? _)%Z; [rewrite landmark_dump_plain|]; reflexivity.
Qed.

(** X5. A falsy packet mutes the synchronization observation.  When
    [handle_quest_packet] is given [None], [false], a zero, an empty string,
    list or object, neither that call nor any [update_lower_body] after it
    emits an observation, however many snapshots arrive, until another
    packet is handed in. *)
Theorem falsy_packet_mutes_observations
    (packet : pyobj) (addr : address) (snapshots : list PoseSnapshot) (ws : FusionWorkspace) :
  py_truthy packet = false ->
  sync_observations
    (records (run_trace float_of_str (UpdateUpper packet addr :: map UpdateLower snapshots) ws))
  = [].
Proof.
  intros Hfalsy. unfold records. cbn [run_trace run_call map concat].
  rewrite sync_observations_app.
  fold (records (run_trace float_of_str (map UpdateLower snapshots)
                   (state (handle_quest_packet float_of_str packet addr ws)))).
  rewrite muted_lower_updates by (rewrite handle_quest_packet_state; exact Hfalsy).
  rewrite handle_quest_packet_observations.
  destruct (result _); [|reflexivity].
  destruct (latest_lower_body ws); [|reflexivity].
  rewrite Hfalsy. reflexivity.
Qed.

(** X6. A packet that is truthy and not a dict (a non-empty list or string,
    a number, [true]) makes [handle_quest_packet] raise [AttributeError], yet
    it is stored, and the next [update_lower_body] reports it: the read of
    its timestamp fails inside the [try], so the observation is emitted with
    the upper-body timestamp 0.0. *)
Theorem stored_non_dict_reads_as_zero
    (packet : pyobj) (addr : address) (snapshot : PoseSnapshot) (ws : FusionWorkspace) :
  py_truthy packet = true ->
  is_dict packet = false ->
  let failed := handle_quest_packet float_of_str packet addr ws in
  exn_cls <$> raised (result failed) = Some AttributeError
  /\ emitted failed = []
  /\ sync_observations (emitted (update_lower_body float_of_str snapshot (state failed)))
     = [sync_record 0 (timestamp snapshot)].
Proof.
  intros Htruthy Hdict failed. subst failed. split; [|split].
  - rewrite handle_quest_packet_raised_class. destruct packet; try reflexivity. discriminate.
  - rewrite handle_quest_packet_unfold. destruct packet; try reflexivity. discriminate.
  - rewrite update_lower_body_observations, handle_quest_packet_state.
    cbn [latest_upper_body set_latest_upper_body]. rewrite Htruthy.
    destruct packet; try reflexivity. discriminate.
Qed.

(** X7. Updates of the two sources commute on the state: a packet and a
    snapshot leave the same workspace whichever arrives first (only the
    records emitted on the way can differ), and a packet handed in twice
    leaves what it leaves when handed in once. *)
Theorem updates_commute_on_state
    (packet : pyobj) (addr : address) (snapshot : PoseSnapshot) (ws : FusionWorkspace) :
  run_calls float_of_str [UpdateUpper packet addr; UpdateLower snapshot] ws
  = run_calls float_of_str [UpdateLower snapshot; UpdateUpper packet addr] ws
  /\ run_calls float_of_str [UpdateUpper packet addr; UpdateUpper packet addr] ws
     = run_calls float_of_str [UpdateUpper packet addr] ws.
Proof.
  cbn [run_calls run_call].
  repeat (rewrite handle_quest_packet_state || rewrite update_lower_body_state).
  split; reflexivity.
Qed.

Lemma datagram_received_propagates {S} (self : PosePacketProtocol S)
    (data : bytes) (addr : address) (e : exn) (s : S) :
  outcome_bind (decode_utf8 data) json_loads = Raised e ->
  is_decode_error e = false ->
  datagram_received decode_utf8 json_loads self data addr s = mkStep (Raised e) s [].
Proof.
  intros Hdec Hcls. unfold datagram_received, try_except, bind, eval.
  rewrite Hdec. simpl. rewrite Hcls. reflexivity.
Qed.

(** X8. [datagram_received] catches the two decoding errors and nothing
    else: any other exception of the decoding step (a [RecursionError] of
    [json.loads] on a deeply nested text, say) leaves the method as it came,
    with no warning logged, the handler not run and the state untouched. *)
Theorem other_exceptions_propagate {S} (self : PosePacketProtocol S)
    (data : bytes) (addr : address) (e : exn) (s : S) :
  outcome_bind (decode_utf8 data) json_loads = Raised e ->
  is_decode_error e = false ->
  datagram_received decode_utf8 json_loads self data addr s = mkStep (Raised e) s [].
Proof. apply datagram_received_propagates. Qed.

Lemma datagram_received_state (data : bytes) (addr : address) (ws : FusionWorkspace) :
  state (datagram_received decode_utf8 json_loads
           (mkPosePacketProtocol (handle_quest_packet float_of_str)) data addr ws)
  = match outcome_bind (decode_utf8 data) json_loads with
    | Returned payload => set_latest_upper_body payload ws
    | Raised _ => ws
    end.
Proof.
  destruct (outcome_bind (decode_utf8 data) json_loads) as [payload | e] eqn:Hdec.
  - rewrite (datagram_received_decoded decode_utf8 json_loads _ _ _ payload) by exact Hdec.
    cbn [_handler]. apply handle_quest_packet_state.
  - destruct (is_decode_error e) eqn:Hcls.
    + now rewrite (datagram_received_dropped decode_utf8 json_loads _ _ _ e).
    + now rewrite (datagram_received_propagates _ _ _ e).
Qed.

Lemma final_state_cons {S A} (s : S) (r : Step S A) (trace : list (Step S A)) :
  final_state s (r :: trace) = final_state (state r) trace.
Proof.
  unfold final_state. rewrite last_cons. destruct (last trace); reflexivity.
Qed.

Lemma listen_fields (datagrams : list (bytes * address)) :
  forall ws : FusionWorkspace,
    let ws' :=
      final_state ws
        (listen decode_utf8 json_loads
           (mkPosePacketProtocol (handle_quest_packet float_of_str)) datagrams ws) in
    latest_upper_body ws'
    = default (latest_upper_body ws) (last_decoded decode_utf8 json_loads datagrams)
    /\ latest_lower_body ws' = latest_lower_body ws
    /\ _mp_frame_idx ws' = _mp_frame_idx ws.
Proof.
  induction datagrams as [| [data addr] rest IH]; intros ws; [repeat split|].
  cbn [listen last_decoded]. cbv zeta. rewrite final_state_cons.
  destruct (IH (state (datagram_received decode_utf8 json_loads
                         (mkPosePacketProtocol (handle_quest_packet float_of_str))
                         data addr ws))) as (Hu & Hl & Hc).
  rewrite Hu, Hl, Hc, datagram_received_state. clear IH Hu Hl Hc.
  destruct (last_decoded decode_utf8 json_loads rest);
    destruct (outcome_bind (decode_utf8 data) json_loads); repeat split.
Qed.

(** X9. The listener in front of the workspace: after any stream of
    datagrams, good and bad in any order, [latest_upper_body] is the payload
    of the last datagram that decoded (what it was before, if none did), and
    the lower-body field and the call counter are as they were: no datagram
    can touch them. *)
Theorem stream_keeps_last_decoded (datagrams : list (bytes * address)) (ws : FusionWorkspace) :
  let ws' :=
    final_state ws
      (listen decode_utf8 json_loads
         (mkPosePacketProtocol (handle_quest_packet float_of_str)) datagrams ws) in
  latest_upper_body ws'
  = default (latest_upper_body ws) (last_decoded decode_utf8 json_loads datagrams)
  /\ latest_lower_body ws' = latest_lower_body ws
  /\ _mp_frame_idx ws' = _mp_frame_idx ws.
Proof. apply listen_fields. Qed.




End MoreProperties.


(** ** Properties of [_pretty_print_packet] *)

Lemma bind_eval_returned {S A B} (a : A) (k : A -> Py S B) (s : S) :
  bind (eval (Returned a)) k s = k a s.
Proof. unfold bind, eval, ret. cbn [result state emitted app]. apply step_eta. Qed.

Lemma bind_eval_raised {S A B} (e : exn) (k : A -> Py S B) (s : S) :
  bind (eval (Raised e)) k s = mkStep (Raised e) s [].
Proof. reflexivity. Qed.

Lemma bind_logger_info {S B} (m : string) (a : list logarg) (k : unit -> Py S B) (s : S) :
  bind (logger_info m a) k s
  = mkStep (result (k tt s)) (state (k tt s)) (mkLog INFO m a :: emitted (k tt s)).
Proof. reflexivity. Qed.

Lemma py_get_dict (d : gmap string pyobj) (key : string) (dflt : pyobj) :
  py_get (PyDict d) key dflt = Returned (default dflt (d !! key)).
Proof. reflexivity. Qed.

Lemma py_get_other (o : pyobj) (key : string) (dflt : pyobj) :
  is_dict o = false ->
  py_get o key dflt
  = Raised (Exn AttributeError ("'" ++ type_name o ++ "' object has no attribute 'get'")).
Proof. destruct o; [reflexivity .. | discriminate]. Qed.

Lemma bind_ext {S A B} (m : Py S A) (k k' : A -> Py S B) (s : S) :
  (forall a s', k a s' = k' a s') -> bind m k s = bind m k' s.
Proof. intros Hk. unfold bind. destruct (result (m s)); [rewrite Hk|]; reflexivity. Qed.

Lemma outcome_map_returns {A B} (f : A -> outcome B) (l : list A) :
  (exists bs, outcome_map f l = Returned bs) <->
  Forall (fun a => exists b, f a = Returned b) l.
Proof.
  induction l as [|a rest IH]; cbn [outcome_map].
  - split; [constructor | eexists; reflexivity].
  - split.
    + intros [bs Hbs]. destruct (f a) as [b|e] eqn:Hfa; [|discriminate].
      cbn [outcome_bind] in Hbs.
      constructor; [exists b; exact Hfa|].
      apply IH.
      destruct (outcome_map f rest) as [bs'|e]; [eexists; reflexivity | discriminate].
    + intros Hall. inversion Hall as [|? ? [b Hb] Hrest]; subst.
      apply IH in Hrest as [bs Hbs]. rewrite Hb. cbn [outcome_bind]. rewrite Hbs.
      eexists; reflexivity.
Qed.

Section PrettyPrintProperties.

Variable format_3f : float -> string.
Variable py_str : pyobj -> string.
Variable decode_utf8 : bytes -> outcome string.
Variable json_loads : string -> outcome pyobj.

Lemma pretty_print_packet_printable {S} (d : gmap string pyobj) (addr : address) (s : S) :
  printable (PyDict d) = true ->
  _pretty_print_packet format_3f py_str (PyDict d) addr s
  = match py_list (default (PyList []) (d !! "joints")) with
    | Raised e => mkStep (Raised e) s [packet_line addr d]
    | Returned [] => mkStep (Returned tt) s [packet_line addr d]
    | Returned joint_list =>
        match joints_summary format_3f py_str joint_list with
        | Raised e => mkStep (Raised e) s [packet_line addr d]
        | Returned text =>
            mkStep (Returned tt) s
              [packet_line addr d; mkLog DEBUG MSG_SAMPLE_JOINTS [ArgStr text]]
        end
    end.
Proof.
  intros Hp. unfold printable, dict_at in Hp. unfold packet_line, dict_at, joints_summary.
  destruct (default (PyDict ∅) (d !! "hmd")) as [| b | n | f | t | l | h] eqn:Hh;
    try discriminate Hp.
  destruct (default (PyDict ∅) (h !! "position")) as [| b | n | f | t | l | p] eqn:Hpos;
    try discriminate Hp.
  destruct (default (PyDict ∅) (h !! "rotation")) as [| b | n | f | t | l | r] eqn:Hrot;
    try discriminate Hp.
  clear Hp. unfold _pretty_print_packet.
  rewrite py_get_dict, bind_eval_returned.
  rewrite py_get_dict, Hh, bind_eval_returned.
  rewrite py_get_dict, Hpos, bind_eval_returned.
  rewrite py_get_dict, Hrot, bind_eval_returned.
  do 4 rewrite py_get_dict, bind_eval_returned.
  rewrite bind_logger_info.
  rewrite py_get_dict, bind_eval_returned.
  unfold number_at.
  destruct (py_list (default (PyList []) (d !! "joints"))) as [[|j js]|e].
  - rewrite bind_eval_returned. reflexivity.
  - rewrite bind_eval_returned.
    destruct (outcome_map (joint_text format_3f py_str) (take 4 (j :: js))) as [texts|e].
    + rewrite bind_eval_returned. reflexivity.
    + rewrite bind_eval_raised. reflexivity.
  - rewrite bind_eval_raised. reflexivity.
Qed.

Lemma pretty_print_packet_unprintable {S} (packet : pyobj) (addr : address) (s : S) :
  printable packet = false ->
  exists text,
    _pretty_print_packet format_3f py_str packet addr s
    = mkStep (Raised (Exn AttributeError text)) s [].
Proof.
  intros Hp. unfold _pretty_print_packet.
  destruct packet as [| b | n | f | t | l | d];
    try (rewrite py_get_other by reflexivity; rewrite bind_eval_raised;
         eexists; reflexivity).
  unfold printable, dict_at in Hp. revert Hp.
  do 2 rewrite py_get_dict, bind_eval_returned.
  destruct (default (PyDict ∅) (d !! "hmd")) as [| b | n | f | t | l | h];
    try (intros _; rewrite py_get_other by reflexivity; rewrite bind_eval_raised;
         eexists; reflexivity).
  do 2 rewrite py_get_dict, bind_eval_returned.
  destruct (default (PyDict ∅) (h !! "position")) as [| b | n | f | t | l | p];
    try (intros _; rewrite py_get_other by reflexivity; rewrite bind_eval_raised;
         eexists; reflexivity).
  do 3 rewrite py_get_dict, bind_eval_returned.
  destruct (default (PyDict ∅) (h !! "rotation")) as [| b | n | f | t | l | r];
    intros Hp; try discriminate Hp;
    rewrite py_get_other by reflexivity; rewrite bind_eval_raised;
    eexists; reflexivity.
Qed.

(** X11. What [_pretty_print_packet] logs.  It never touches the state of its
    caller.  When the packet is a dict whose [hmd], and the [position] and
    [rotation] of that, are dicts (a missing one counts as an empty dict), it
    logs the packet line, with 0.0 for every coordinate that is missing, and
    after it at most the one debug line of the joints, and only when it
    returns.  For any other packet it raises [AttributeError] and has logged
    nothing. *)
Theorem pretty_print_packet_records {S}
    (packet : pyobj) (addr : address) (s : S) :
  let r := _pretty_print_packet format_3f py_str packet addr s in
  state r = s /\
  if printable packet
  then exists d, packet = PyDict d /\
       (emitted r = [packet_line addr d] \/
        exists text,
          emitted r = [packet_line addr d; mkLog DEBUG MSG_SAMPLE_JOINTS [ArgStr text]]
          /\ result r = Returned tt)
  else exn_cls <$> raised (result r) = Some AttributeError /\ emitted r = [].
Proof.
  cbv zeta. destruct (printable packet) eqn:Hp.
  - destruct packet as [| b | n | f | t | l | d]; try discriminate.
    rewrite (pretty_print_packet_printable d addr s Hp).
    destruct (py_list (default (PyList []) (d !! "joints"))) as [[|j js]|e].
    + split; [reflexivity|]. exists d. split; [reflexivity|]. left. reflexivity.
    + destruct (joints_summary format_3f py_str (j :: js)) as [text|e].
      * split; [reflexivity|]. exists d. split; [reflexivity|]. right.
        exists text. split; reflexivity.
      * split; [reflexivity|]. exists d. split; [reflexivity|]. left. reflexivity.
    + split; [reflexivity|]. exists d. split; [reflexivity|]. left. reflexivity.
  - destruct (pretty_print_packet_unprintable packet addr s Hp) as [text ->].
    repeat split.
Qed.

(** X12. Only the first four joints are looked at.  Two packets that differ
    only in the joints after the fourth, and both have some, are printed
    alike: same result, same records.  A fifth joint that is not even an
    object goes unnoticed. *)
Theorem pretty_print_packet_samples_four {S}
    (d : gmap string pyobj) (first_four more more' : list pyobj)
    (addr : address) (s : S) :
  length first_four = 4%nat ->
  more <> [] ->
  more' <> [] ->
  _pretty_print_packet format_3f py_str
    (PyDict (<["joints" := PyList (first_four ++ more)]> d)) addr s
  = _pretty_print_packet format_3f py_str
      (PyDict (<["joints" := PyList (first_four ++ more')]> d)) addr s.
Proof.
  intros Hlen Hmore Hmore'.
  assert (Hlong : forall extra : list pyobj,
             extra <> [] -> (4 <? length (first_four ++ extra))%nat = true).
  { intros extra Hextra. apply Nat.ltb_lt. rewrite length_app.
    destruct extra; [congruence | simpl; lia]. }
  assert (Htake : forall extra : list pyobj, take 4 (first_four ++ extra) = first_four).
  { intros extra. rewrite <- Hlen. apply take_app_length. }
  unfold _pretty_print_packet.
  rewrite !py_get_dict.
  rewrite !lookup_insert_eq.
  rewrite !lookup_insert_ne by discriminate.
  do 9 (apply bind_ext; intros ? ?).
  cbn [default id]. rewrite !bind_eval_returned.
  cbn [py_list]. rewrite !bind_eval_returned. cbn beta.
  rewrite !Htake, !Hlong by assumption.
  destruct first_four as [|j js]; [discriminate Hlen|].
  reflexivity.
Qed.

(** X13. [_pretty_print_packet] as the handler of the listener, as [main]
    installs it: a datagram that decodes to something the packet line cannot
    be written for (JSON that is not an object, or an object whose [hmd] is
    [null] or a number, ...) makes [datagram_received] itself raise
    [AttributeError]; nothing is logged for it, no warning either. *)
Theorem unprintable_datagram_raises {S}
    (data : bytes) (addr : address) (payload : pyobj) (s : S) :
  outcome_bind (decode_utf8 data) json_loads = Returned payload ->
  printable payload = false ->
  let r := datagram_received decode_utf8 json_loads
             (mkPosePacketProtocol (_pretty_print_packet format_3f py_str))
             data addr s in
  exn_cls <$> raised (result r) = Some AttributeError /\ emitted r = [] /\ state r = s.
Proof.
  intros Hdec Hp. cbv zeta.
  rewrite (datagram_received_decoded _ _ _ _ _ payload _ Hdec).
  cbn [_handler].
  destruct (pretty_print_packet_unprintable payload addr s Hp) as [text ->].
  repeat split.
Qed.

(** X14. When a printed packet makes [_pretty_print_packet] return: for a
    packet the packet line can be written for and whose [joints] is a list,
    the call returns exactly when the text of each of the first four joints
    can be written ([joint_text] returns for it); otherwise it raises, and
    the packet line is the one record that went out. *)
Theorem pretty_print_packet_returns_iff {S}
    (d : gmap string pyobj) (joint_list : list pyobj) (addr : address) (s : S) :
  printable (PyDict d) = true ->
  d !! "joints" = Some (PyList joint_list) ->
  let r := _pretty_print_packet format_3f py_str (PyDict d) addr s in
  (result r = Returned tt <->
   Forall (fun joint => exists text, joint_text format_3f py_str joint = Returned text)
          (take 4 joint_list))
  /\ (forall e, result r = Raised e -> emitted r = [packet_line addr d]).
Proof.
  intros Hp Hj. cbv zeta.
  rewrite (pretty_print_packet_printable d addr s Hp), Hj. cbn [default id py_list].
  rewrite <- outcome_map_returns.
  destruct joint_list as [|j js].
  - cbn [result emitted take outcome_map].
    split; [split; [eexists; reflexivity | reflexivity] | discriminate].
  - unfold joints_summary.
    destruct (outcome_map (joint_text format_3f py_str) (take 4 (j :: js))) as [texts|e];
      cbn [outcome_bind result emitted].
    + split; [split; [eexists; reflexivity | reflexivity] | discriminate].
    + split; [split; [discriminate | intros [bs Hbs]; discriminate] | reflexivity].
Qed.

End PrettyPrintProperties.

(** ** Properties of [extract_pose_data] and of its snapshots in the workspace *)

Lemma dict_setitem_keys {V} (key : string) (v : V) (output : list (string * V)) :
  (dict_setitem key v output).*1
  = if bool_decide (key ∈ output.*1) then output.*1 else (output.*1 ++ [key])%list.
Proof.
  induction output as [|[k w] rest IH]; [reflexivity|].
  cbn [dict_setitem fmap list_fmap fst].
  destruct (String.eqb k key) eqn:Hk.
  - apply String.eqb_eq in Hk as ->.
    rewrite bool_decide_eq_true_2 by (cbn; left). reflexivity.
  - apply String.eqb_neq in Hk.
    cbn [fmap list_fmap fst]. fold (@fmap list _ _ _ (@fst string V) (dict_setitem key v rest)).
    rewrite IH.
    destruct (bool_decide (key ∈ rest.*1)) eqn:Hin.
    + apply bool_decide_eq_true_1 in Hin.
      rewrite bool_decide_eq_true_2 by (cbn; right; exact Hin). reflexivity.
    + apply bool_decide_eq_false_1 in Hin.
      rewrite bool_decide_eq_false_2; [reflexivity|].
      cbn. intros Hc. apply elem_of_cons in Hc as [Hc|Hc]; [congruence | contradiction].
Qed.

Lemma dict_setitem_NoDup {V} (key : string) (v : V) (output : list (string * V)) :
  NoDup output.*1 -> NoDup (dict_setitem key v output).*1.
Proof.
  intros Hnd. rewrite dict_setitem_keys.
  destruct (bool_decide (key ∈ output.*1)) eqn:Hin; [exact Hnd|].
  apply bool_decide_eq_false_1 in Hin.
  apply NoDup_app. split; [exact Hnd|]. split.
  - intros k Hk Hk'. apply list_elem_of_singleton in Hk' as ->. contradiction.
  - apply NoDup_singleton.
Qed.

Lemma dict_setitem_fresh {V} (key : string) (v : V) (output : list (string * V)) :
  key ∉ output.*1 -> dict_setitem key v output = (output ++ [(key, v)])%list.
Proof.
  induction output as [|[k w] rest IH]; intros Hfresh; [reflexivity|].
  cbn [dict_setitem]. cbn in Hfresh. apply not_elem_of_cons in Hfresh as [Hne Hfresh].
  destruct (String.eqb k key) eqn:Hk.
  - apply String.eqb_eq in Hk. congruence.
  - rewrite IH by exact Hfresh. reflexivity.
Qed.

Lemma dict_setitem_insert {V} (key : string) (v : V) (output : list (string * V)) :
  (list_to_map (dict_setitem key v output) : gmap string V)
  = <[key := v]> (list_to_map output).
Proof.
  induction output as [|[k w] rest IH]; [reflexivity|].
  cbn [dict_setitem]. destruct (String.eqb k key) eqn:Hk.
  - apply String.eqb_eq in Hk as ->. cbn [list_to_map foldr uncurry fst snd].
    rewrite insert_insert_eq. reflexivity.
  - apply String.eqb_neq in Hk. cbn [list_to_map foldr uncurry fst snd].
    change (foldr (fun p => <[p.1 := p.2]>) ∅ (dict_setitem key v rest))
      with (list_to_map (dict_setitem key v rest) : gmap string V).
    rewrite IH. apply insert_insert_ne. congruence.
Qed.

Lemma landmark_dict_record (idx : Z) (key : string) (landmark : Landmark) :
  keypoint_record idx key (_landmark_dict landmark) = landmark_record idx key landmark.
Proof.
  unfold keypoint_record, landmark_record, _landmark_dict.
  repeat (rewrite lookup_insert_eq || rewrite lookup_insert_ne by discriminate
          || rewrite lookup_singleton_eq).
  reflexivity.
Qed.

Section MediaPipeProperties.

Variable ALL_LANDMARKS : list PoseLandmark.
Variable str_lower : string -> string.
Variable now : float.
Variable float_of_str : string -> option float.

Lemma fill_output_spec (world_landmarks : list Landmark) (members : list PoseLandmark) :
  forall output,
  match fill_output str_lower world_landmarks members output with
  | inl output' =>
      exists found,
        Forall2 (fun e landmark => world_landmarks !! value e = Some landmark) members found
        /\ output' = assign str_lower output (zip members found)
  | inr idx =>
      exists visited e rest,
        members = (visited ++ e :: rest)%list
        /\ Forall (fun e => (value e < length world_landmarks)%nat) visited
        /\ value e = idx /\ (length world_landmarks <= idx)%nat
  end.
Proof.
  induction members as [|e rest IH]; intros output; cbn [fill_output].
  - exists []. split; [constructor | reflexivity].
  - cbv zeta. destruct (world_landmarks !! value e) as [landmark|] eqn:Hidx.
    + specialize (IH (dict_setitem (str_lower (name e)) (_landmark_dict landmark) output)).
      destruct (fill_output str_lower world_landmarks rest _) as [output'|idx].
      * destruct IH as (found & Hfound & ->).
        exists (landmark :: found). split; [constructor; assumption | reflexivity].
      * destruct IH as (visited & e' & rest' & -> & Hvisited & Hval & Hout).
        exists (e :: visited), e', rest'. repeat split; try assumption.
        constructor; [|exact Hvisited].
        apply lookup_lt_Some in Hidx. exact Hidx.
    + exists [], e, rest. repeat split; [constructor|].
      apply lookup_ge_None in Hidx. exact Hidx.
Qed.

Lemma found_in_range (world_landmarks : list Landmark) (members : list PoseLandmark)
    (found : list Landmark) :
  Forall2 (fun e landmark => world_landmarks !! value e = Some landmark) members found ->
  Forall (fun e => (value e < length world_landmarks)%nat) members.
Proof.
  induction 1 as [|e landmark members found He _ IH]; constructor; [|exact IH].
  apply lookup_lt_Some in He. exact He.
Qed.

Lemma assign_NoDup (pairs : list (PoseLandmark * Landmark)) :
  forall output, NoDup output.*1 -> NoDup (assign str_lower output pairs).*1.
Proof.
  induction pairs as [|p rest IH]; intros output Hnd; [exact Hnd|].
  apply IH, dict_setitem_NoDup, Hnd.
Qed.

Lemma assign_insert (pairs : list (PoseLandmark * Landmark)) :
  forall output,
    (list_to_map (assign str_lower output pairs) : gmap string (gmap string float))
    = foldl (fun m p => <[str_lower (name p.1) := _landmark_dict p.2]> m)
        (list_to_map output) pairs.
Proof.
  induction pairs as [|p rest IH]; intros output; [reflexivity|].
  unfold assign. cbn [foldl]. fold (assign str_lower (dict_setitem (str_lower (name p.1))
                                              (_landmark_dict p.2) output) rest).
  rewrite IH, dict_setitem_insert. reflexivity.
Qed.

Lemma assign_fresh (pairs : list (PoseLandmark * Landmark)) :
  forall output,
    NoDup (output.*1 ++ ((fun p => str_lower (name p.1)) <$> pairs))%list ->
    assign str_lower output pairs
    = (output ++ ((fun p => (str_lower (name p.1), _landmark_dict p.2)) <$> pairs))%list.
Proof.
  induction pairs as [|p rest IH]; intros output Hnd.
  - cbn. rewrite app_nil_r. reflexivity.
  - unfold assign. cbn [foldl]. fold (assign str_lower (dict_setitem (str_lower (name p.1))
                                                (_landmark_dict p.2) output) rest).
    assert (Hfresh : str_lower (name p.1) ∉ output.*1).
    { apply NoDup_app in Hnd as (_ & Hdisj & _). intros Hin.
      apply (Hdisj _ Hin). cbn. left. }
    rewrite dict_setitem_fresh by exact Hfresh.
    rewrite IH.
    + rewrite <- app_assoc. reflexivity.
    + rewrite fmap_app. cbn [fmap list_fmap fst]. rewrite <- app_assoc. exact Hnd.
Qed.

(** X15. The three ways [extract_pose_data] ends.  It returns [None] exactly
    when one of the two landmark lists of the result is missing.  It raises
    [IndexError] at the first member of the enumeration whose value is not a
    position of the world landmarks.  Otherwise every member has its landmark
    and the snapshot carries the time of the clock: there is no snapshot of
    a part of the members. *)
Theorem extract_pose_data_outcome (results : PoseResults) :
  match extract_pose_data ALL_LANDMARKS str_lower now results with
  | Extracted None =>
      pose_landmarks results = None \/ pose_world_landmarks results = None
  | Extracted (Some snapshot) =>
      timestamp snapshot = now
      /\ exists world_landmarks,
           pose_world_landmarks results = Some world_landmarks
           /\ is_Some (pose_landmarks results)
           /\ Forall (fun e => (value e < length world_landmarks)%nat) ALL_LANDMARKS
  | IndexError idx =>
      exists world_landmarks visited e rest,
        pose_world_landmarks results = Some world_landmarks
        /\ is_Some (pose_landmarks results)
        /\ ALL_LANDMARKS = (visited ++ e :: rest)%list
        /\ Forall (fun e => (value e < length world_landmarks)%nat) visited
        /\ value e = idx /\ (length world_landmarks <= idx)%nat
  end.
Proof.
  unfold extract_pose_data.
  destruct (pose_landmarks results) as [image_landmarks|]; [|left; reflexivity].
  destruct (pose_world_landmarks results) as [world_landmarks|]; [|right; reflexivity].
  pose proof (fill_output_spec world_landmarks ALL_LANDMARKS []) as Hspec.
  destruct (fill_output str_lower world_landmarks ALL_LANDMARKS []) as [output|idx].
  - destruct Hspec as (found & Hfound & _). split; [reflexivity|].
    exists world_landmarks. repeat split; [eexists; reflexivity|].
    exact (found_in_range _ _ _ Hfound).
  - destruct Hspec as (visited & e & rest & Hall & Hvisited & Hval & Hout).
    exists world_landmarks, visited, e, rest.
    repeat split; try assumption. eexists; reflexivity.
Qed.

(** X16. The landmarks of the snapshot, when the lower-cased names of the
    members are distinct and every value is a position of the world
    landmarks: one item per member, in the order of the enumeration, under
    the lower-cased name, with the four entries of [_landmark_dict] for the
    world landmark at the member's value.  The image landmarks only have to
    be there. *)
Theorem extract_pose_data_in_order (results : PoseResults) (world_landmarks : list Landmark) :
  is_Some (pose_landmarks results) ->
  pose_world_landmarks results = Some world_landmarks ->
  NoDup ((fun e => str_lower (name e)) <$> ALL_LANDMARKS) ->
  Forall (fun e => (value e < length world_landmarks)%nat) ALL_LANDMARKS ->
  exists found,
    Forall2 (fun e landmark => world_landmarks !! value e = Some landmark) ALL_LANDMARKS found
    /\ extract_pose_data ALL_LANDMARKS str_lower now results
       = Extracted (Some (mkPoseSnapshot now
           (zip_with (fun e landmark => (str_lower (name e), _landmark_dict landmark))
              ALL_LANDMARKS found))).
Proof.
  intros [image_landmarks Himage] Hworld Hnames Hrange.
  unfold extract_pose_data. rewrite Himage, Hworld.
  pose proof (fill_output_spec world_landmarks ALL_LANDMARKS []) as Hspec.
  destruct (fill_output str_lower world_landmarks ALL_LANDMARKS []) as [output|idx].
  - destruct Hspec as (found & Hfound & ->). exists found. split; [exact Hfound|].
    rewrite assign_fresh.
    + cbn [app]. do 3 f_equal.
      clear -Hfound. induction Hfound as [|e landmark members found _ _ IH];
        [reflexivity|]. cbn. rewrite IH. reflexivity.
    + cbn [fmap list_fmap app].
      replace ((fun p : PoseLandmark * Landmark => str_lower (name p.1))
                 <$> zip ALL_LANDMARKS found)
        with ((fun e => str_lower (name e)) <$> ALL_LANDMARKS); [exact Hnames|].
      clear -Hfound. induction Hfound as [|e landmark members found _ _ IH];
        [reflexivity|]. cbn. rewrite IH. reflexivity.
  - destruct Hspec as (visited & e & rest & Hall & _ & Hval & Hout).
    rewrite Hall in Hrange. apply Forall_app in Hrange as [_ Hrange].
    apply Forall_cons in Hrange as [He _]. lia.
Qed.

(** X17. A snapshot of [extract_pose_data] never has a landmark name twice,
    whatever the names of the members are; as a mapping it is what assigning
    each member's landmark under its lower-cased name gives, a later member
    replacing an earlier one of the same lower-cased name. *)
Theorem extracted_names_unique (results : PoseResults) (snapshot : PoseSnapshot) :
  extract_pose_data ALL_LANDMARKS str_lower now results = Extracted (Some snapshot) ->
  NoDup (landmarks snapshot).*1
  /\ (length (landmarks snapshot) <= length ALL_LANDMARKS)%nat
  /\ exists world_landmarks found,
       pose_world_landmarks results = Some world_landmarks
       /\ Forall2 (fun e landmark => world_landmarks !! value e = Some landmark)
            ALL_LANDMARKS found
       /\ (list_to_map (landmarks snapshot) : gmap string (gmap string float))
          = foldl (fun m p => <[str_lower (name p.1) := _landmark_dict p.2]> m) ∅
              (zip ALL_LANDMARKS found).
Proof.
  unfold extract_pose_data.
  destruct (pose_landmarks results) as [image_landmarks|]; [|discriminate].
  destruct (pose_world_landmarks results) as [world_landmarks|]; [|discriminate].
  pose proof (fill_output_spec world_landmarks ALL_LANDMARKS []) as Hspec.
  destruct (fill_output str_lower world_landmarks ALL_LANDMARKS []) as [output|idx];
    [|discriminate].
  destruct Hspec as (found & Hfound & ->). intros [= <-]. cbn [landmarks].
  split; [apply assign_NoDup; constructor|]. split.
  - assert (Hlen : forall pairs output,
               (length (assign str_lower output pairs) <= length output + length pairs)%nat).
    { induction pairs as [|p rest IH]; intros output; [cbn; lia|].
      unfold assign. cbn [foldl].
      fold (assign str_lower (dict_setitem (str_lower (name p.1)) (_landmark_dict p.2) output) rest).
      etransitivity; [apply IH|].
      assert (Hstep : (length (dict_setitem (str_lower (name p.1)) (_landmark_dict p.2)
                                 output) <= S (length output))%nat).
      { rewrite <- (length_fmap fst), dict_setitem_keys.
        destruct (bool_decide _); rewrite ?length_app, !length_fmap; cbn; lia. }
      cbn [length]. lia. }
    etransitivity; [apply Hlen|]. cbn [length].
    rewrite length_zip_with. lia.
  - exists world_landmarks, found. repeat split; [exact Hfound|].
    rewrite assign_insert. reflexivity.
Qed.

(** X18. A snapshot made of [_landmark_dict]s in the dump of
    [update_lower_body]: on a call that leaves the counter at a multiple of
    60, the four entries the dump reads are the four [_landmark_dict] wrote,
    so each line carries the landmark's own [x], [y], [z] and its
    [visibility], or 0.0 for a landmark without that attribute; no
    coordinate is replaced by the 0.0 of a missing entry. *)
Theorem landmark_dict_dump
    (named : list (string * Landmark)) (time : float) (ws : FusionWorkspace) :
  ((frame_count ws + 1) mod 60 = 0)%Z ->
  named <> [] ->
  let snapshot := mkPoseSnapshot time ((fun p => (p.1, _landmark_dict p.2)) <$> named) in
  emitted (update_lower_body float_of_str snapshot ws)
  = (mkLog INFO MSG_SNAPSHOT [ArgFloat time; ArgInt (Z.of_nat (length named))]
     :: imap (fun i p => landmark_record (Z.of_nat i + 1) p.1 p.2) named
     ++ spec_sync float_of_str (state (update_lower_body float_of_str snapshot ws)))%list.
Proof.
  intros Hcount Hnamed. cbv zeta.
  rewrite update_lower_body_emitted.
  apply Z.eqb_eq in Hcount. rewrite Hcount.
  unfold landmark_dump. cbn [landmarks timestamp].
  destruct named as [|p rest]; [congruence|].
  cbn [fmap list_fmap]. rewrite app_comm_cons. f_equal. f_equal.
  - rewrite !length_cons, length_fmap. reflexivity.
  - change ((p.1, _landmark_dict p.2)
            :: ((fun p0 : string * Landmark => (p0.1, _landmark_dict p0.2)) <$> rest))
      with ((fun p0 : string * Landmark => (p0.1, _landmark_dict p0.2)) <$> (p :: rest)).
    rewrite imap_fmap. apply imap_ext. intros i q _.
    unfold compose. cbn [fst snd]. apply landmark_dict_record.
Qed.

End MediaPipeProperties.

(** ** Further examples *)

Lemma dump_reads_four_entries_witness :
  timestamp nose_snapshot = timestamp nose_snapshot_bare
  /\ emitted (update_lower_body float_read nose_snapshot due_workspace)
     = emitted (update_lower_body float_read nose_snapshot_bare due_workspace).
Proof.
  split; [reflexivity|].
  apply (dump_reads_four_entries float_read nose_snapshot nose_snapshot_bare due_workspace).
  - reflexivity.
  - repeat constructor; vm_compute; reflexivity.
Defined.

Lemma falsy_packet_mutes_observations_witness :
  py_truthy (PyDict ∅) = false
  /\ sync_observations
       (records (run_trace float_read
                   (UpdateUpper (PyDict ∅) quest_addr
                    :: map UpdateLower [nose_snapshot; nose_snapshot_bare])
                   due_workspace))
     = [].
Proof.
  split; [reflexivity|].
  apply (falsy_packet_mutes_observations float_read (PyDict ∅) quest_addr
           [nose_snapshot; nose_snapshot_bare] due_workspace).
  reflexivity.
Defined.

Lemma stored_non_dict_reads_as_zero_witness :
  let failed := handle_quest_packet float_read (PyList [PyInt 1]) quest_addr due_workspace in
  exn_cls <$> raised (result failed) = Some AttributeError
  /\ emitted failed = []
  /\ sync_observations (emitted (update_lower_body float_read nose_snapshot (state failed)))
     = [sync_record 0 (timestamp nose_snapshot)].
Proof.
  apply (stored_non_dict_reads_as_zero float_read (PyList [PyInt 1]) quest_addr
           nose_snapshot due_workspace); reflexivity.
Defined.

Lemma other_exceptions_propagate_witness :
  outcome_bind (utf8_decode nested_datagram) (json_read_limited 2) = Raised recursion_error
  /\ datagram_received utf8_decode (json_read_limited 2) quest_listener
       nested_datagram quest_addr due_workspace
     = mkStep (Raised recursion_error) due_workspace [].
Proof.
  assert (Hraised : outcome_bind (utf8_decode nested_datagram) (json_read_limited 2)
                    = Raised recursion_error) by (vm_compute; reflexivity).
  split; [exact Hraised|].
  apply (other_exceptions_propagate utf8_decode (json_read_limited 2) quest_listener
           nested_datagram quest_addr recursion_error due_workspace Hraised).
  reflexivity.
Defined.

Lemma pretty_print_packet_samples_four_witness :
  _pretty_print_packet write_3f write_str
    (PyDict (<["joints" := PyList (four_joints ++ [PyInt 7])]> ∅)) quest_addr tt
  = _pretty_print_packet write_3f write_str
      (PyDict (<["joints" := PyList (four_joints ++ [joint "LeftHand" 0 1 0])]> ∅))
      quest_addr tt.
Proof.
  apply (pretty_print_packet_samples_four write_3f write_str ∅ four_joints
           [PyInt 7] [joint "LeftHand" 0 1 0] quest_addr tt).
  - reflexivity.
  - discriminate.
  - discriminate.
Defined.

Lemma unprintable_datagram_raises_witness :
  outcome_bind (utf8_decode null_hmd_datagram) json_read = Returned null_hmd_packet
  /\ printable null_hmd_packet = false
  /\ let r := datagram_received utf8_decode json_read
                (mkPosePacketProtocol (_pretty_print_packet write_3f write_str))
                null_hmd_datagram quest_addr tt in
     exn_cls <$> raised (result r) = Some AttributeError /\ emitted r = [] /\ state r = tt.
Proof.
  assert (Hdecoded : outcome_bind (utf8_decode null_hmd_datagram) json_read
                     = Returned null_hmd_packet) by (vm_compute; reflexivity).
  assert (Hhmd : printable null_hmd_packet = false) by (vm_compute; reflexivity).
  split; [exact Hdecoded|]. split; [exact Hhmd|].
  exact (unprintable_datagram_raises write_3f write_str utf8_decode json_read
           null_hmd_datagram quest_addr null_hmd_packet tt Hdecoded Hhmd).
Defined.

Lemma pretty_print_packet_returns_iff_witness :
  let d : gmap string pyobj := {[ "joints" := PyList (four_joints ++ [PyInt 7]) ]} in
  let r := _pretty_print_packet write_3f write_str (PyDict d) quest_addr tt in
  (result r = Returned tt <->
   Forall (fun joint => exists text, joint_text write_3f write_str joint = Returned text)
          (take 4 (four_joints ++ [PyInt 7])))
  /\ (forall e, result r = Raised e -> emitted r = [packet_line quest_addr d]).
Proof.
  apply (pretty_print_packet_returns_iff write_3f write_str
           {[ "joints" := PyList (four_joints ++ [PyInt 7]) ]}
           (four_joints ++ [PyInt 7]) quest_addr tt).
  - vm_compute; reflexivity.
  - vm_compute; reflexivity.
Defined.

Lemma extract_pose_data_in_order_witness :
  exists found,
    Forall2 (fun e landmark => three_landmarks !! value e = Some landmark)
      first_pose_landmarks found
    /\ extract_pose_data first_pose_landmarks ascii_lower 10.25 three_landmark_results
       = Extracted (Some (mkPoseSnapshot 10.25
           (zip_with (fun e landmark => (ascii_lower (name e), _landmark_dict landmark))
              first_pose_landmarks found))).
Proof.
  apply (extract_pose_data_in_order first_pose_landmarks ascii_lower 10.25%float
           three_landmark_results three_landmarks).
  - eexists; reflexivity.
  - reflexivity.
  - apply (bool_decide_unpack _). vm_compute. exact I.
  - repeat constructor.
Defined.

Lemma extracted_names_unique_witness :
  let snapshot :=
    mkPoseSnapshot 10.25 [("nose", _landmark_dict (mkLandmark 0.7 0.8 0.9 None))]%float in
  extract_pose_data clashing_pose_landmarks ascii_lower 10.25 three_landmark_results
  = Extracted (Some snapshot)
  /\ NoDup (landmarks snapshot).*1
  /\ (length (landmarks snapshot) <= length clashing_pose_landmarks)%nat.
Proof.
  assert (Hextracted :
    extract_pose_data clashing_pose_landmarks ascii_lower 10.25 three_landmark_results
    = Extracted (Some (mkPoseSnapshot 10.25
                         [("nose", _landmark_dict (mkLandmark 0.7 0.8 0.9 None))]%float)))
    by reflexivity.
  destruct (extracted_names_unique clashing_pose_landmarks ascii_lower 10.25%float
              three_landmark_results _ Hextracted) as (Hunique & Hlength & _).
  split; [exact Hextracted|]. split; [exact Hunique | exact Hlength].
Defined.

Lemma landmark_dict_dump_witness :
  let named := [("nose", mkLandmark 0.7 0.8 0.9 None)]%float in
  let snapshot := mkPoseSnapshot 10.25 ((fun p => (p.1, _landmark_dict p.2)) <$> named) in
  emitted (update_lower_body float_read snapshot due_workspace)
  = (mkLog INFO MSG_SNAPSHOT [ArgFloat 10.25; ArgInt 1]
     :: imap (fun i p => landmark_record (Z.of_nat i + 1) p.1 p.2) named
     ++ spec_sync float_read (state (update_lower_body float_read snapshot due_workspace)))%list.
Proof.
  apply (landmark_dict_dump float_read [("nose", mkLandmark 0.7 0.8 0.9 None)]%float
           10.25%float due_workspace).
  - reflexivity.
  - discriminate.
Defined.
